(** * Allez Middleman: connection binding, room addressing and event routing

    A shallow embedding of the relay's JavaScript sources:
    - [app.js] (src/app.js): the stand-alone entry point, with
      [validateApiKey], the thirteen ingestion routes and the socket
      handlers registered on connection;
    - [middleware/auth.js] (src/unnamed/part_000): [validateBackendAuth]
      and [validateSocketAuth];
    - [controllers/tripController.js], [server.js] and
      [handlers/socketHandler.js] (the three scripts that follow the
      configuration lines in src/env.example): the modular server's
      ingestion handlers with their [broadcast...] functions, its routes,
      and its socket commands.

    A socket carries the properties the sources attach to it and the set
    of rooms it joined; the Socket.IO server is a finite map from socket
    ids to sockets. Requests are taken after body parsing: [req.body] and
    socket messages are objects. *)

From Stdlib Require Import Ascii.
From stdpp Require Import gmap strings list fin_maps fin_sets pretty.

Local Open Scope string_scope.
Local Open Scope Z_scope.
Local Open Scope list_scope.
Set Warnings "-register-all,-clear-no-such-hyp".

(** ** JavaScript values carried by request bodies and socket messages *)

(** JSON data as the handlers see it after [express.json()]: numbers are
    the integers (printed in decimal), strings are sequences of code
    units, objects are field lists. *)
Inductive jsval : Type :=
  | JUndefined
  | JNull
  | JBool (b : bool)
  | JNum (n : Z)
  | JStr (s : string)
  | JArr (elts : list jsval)
  | JObj (fields : list (string * jsval)).

(** An object literal, in the order its properties are written. *)
Abbreviation payload := (list (string * jsval)).

(** A parsed object read by destructuring: [req.body], a socket message,
    a decoded token. *)
Abbreviation jsobj := (gmap string jsval).

(** [const { k } = o] *)
Definition field (o : jsobj) (k : string) : jsval := default JUndefined (o !! k).

(** ToBoolean *)
Definition truthy (v : jsval) : bool :=
  match v with
  | JUndefined | JNull => false
  | JBool b => b
  | JNum n => negb (n =? 0)
  | JStr s => negb (String.eqb s "")
  | JArr _ | JObj _ => true
  end.

(** [a || b] *)
Definition js_or (a b : jsval) : jsval := if truthy a then a else b.

Fixpoint join_strings (sep : string) (l : list string) : string :=
  match l with
  | [] => ""
  | [x] => x
  | x :: r => x +:+ sep +:+ join_strings sep r
  end.

(** ToString, as performed by a template literal [`${v}`]. *)
Fixpoint toString (v : jsval) : string :=
  match v with
  | JUndefined => "undefined"
  | JNull => "null"
  | JBool true => "true"
  | JBool false => "false"
  | JNum n => pretty n
  | JStr s => s
  | JArr l =>
      join_strings ","
        (map (fun x => match x with
                       | JUndefined | JNull => ""
                       | _ => toString x
                       end) l)
  | JObj _ => "[object Object]"
  end.

(** [v === 'lit'] against a string literal *)
Definition strict_eq_str (v : jsval) (lit : string) : bool :=
  match v with
  | JStr s => String.eqb s lit
  | _ => false
  end.

(** ** String.prototype.replace with a string pattern *)

Fixpoint strip_prefix (pat s : string) : option string :=
  match pat, s with
  | EmptyString, _ => Some s
  | String a p, String b r => if Ascii.eqb a b then strip_prefix p r else None
  | String _ _, EmptyString => None
  end.

(** [s.replace(pat, rep)]: only the first occurrence is replaced. *)
Fixpoint js_replace (pat rep s : string) : string :=
  match strip_prefix pat s with
  | Some rest => rep +:+ rest
  | None =>
      match s with
      | EmptyString => EmptyString
      | String c r => String c (js_replace pat rep r)
      end
  end.

(** [s.includes(pat)] *)
Fixpoint contains (pat s : string) : bool :=
  match strip_prefix pat s with
  | Some _ => true
  | None =>
      match s with
      | EmptyString => false
      | String _ r => contains pat r
      end
  end.

(** ** Environment, HTTP responses, logs *)

(** [process.env]: every value is a string. *)
Abbreviation environment := (gmap string string).

(** Truthiness of a header or environment value: [undefined] and the
    empty string are falsy. *)
Definition present (h : option string) : bool :=
  match h with
  | Some s => negb (String.eqb s "")
  | None => false
  end.

Record response := Response { status : nat; json : payload }.

Inductive log_level := LogError | LogWarn | LogInfo.

Abbreviation log_entry := (log_level * string)%type.

(** What an Express middleware does: answer, or hand over with [next()]. *)
Inductive mw_outcome :=
  | Respond (r : response)
  | Next.

(** ** middleware/auth.js *)

Module Auth.

(** [validateBackendAuth]: [apiKey] is [req.headers['x-api-key']]. The
  body of the [try] cannot throw, so its [catch] is not reached. *)
Definition validateBackendAuth (env : environment) (apiKey : option string)
: mw_outcome * list log_entry :=
let expectedApiKey := env !! "LARAVEL_API_KEY" in
if negb (present apiKey) then
  (Respond (Response 401 [("error", JStr "API key required")]), [])
else if negb (present expectedApiKey) then
  (Respond (Response 500 [("error", JStr "Server configuration error")]),
   [(LogError, "LARAVEL_API_KEY not configured")])
else if bool_decide (apiKey ≠ expectedApiKey) then
  (Respond (Response 401 [("error", JStr "Invalid API key")]),
   [(LogWarn, "Invalid API key attempt")])
else (Next, []).

End Auth.

(** ** Sockets, rooms and the Socket.IO server *)

(** The properties the sources attach to a socket object, and the rooms it
    joined through [socket.join]. *)
Record socket := Socket {
  userId : jsval;
  userType : jsval;
  userEmail : jsval;
  authenticated : jsval;
  rooms : gset string
}.

Definition new_socket : socket :=
  Socket JUndefined JUndefined JUndefined JUndefined ∅.

Definition set_userId (v : jsval) (s : socket) : socket :=
  Socket v (userType s) (userEmail s) (authenticated s) (rooms s).

Definition set_authenticated (v : jsval) (s : socket) : socket :=
  Socket (userId s) (userType s) (userEmail s) v (rooms s).

(** [socket.join(room)] *)
Definition join (room : string) (s : socket) : socket :=
  Socket (userId s) (userType s) (userEmail s) (authenticated s)
         ({[room]} ∪ rooms s).

(** [socket.leave(room)] *)
Definition leave (room : string) (s : socket) : socket :=
  Socket (userId s) (userType s) (userEmail s) (authenticated s)
         (rooms s ∖ {[room]}).

(** [io]: the connected sockets by socket id. *)
Abbreviation server := (gmap string socket).

(** A message handed to one connection. *)
Record delivery := Delivery {
  dst : string;
  event : string;
  data : payload
}.

Definition members (io : server) (room : string) : gset string :=
  dom (filter (λ p : string * socket, room ∈ rooms p.2) io).

(** [io.to(room).emit(ev, d)] *)
Definition to_emit (io : server) (room ev : string) (d : payload)
  : list delivery :=
  (λ i, Delivery i ev d) <$> elements (members io room).

(** [socket.emit(ev, d)] on the socket with id [i] *)
Definition socket_emit (i ev : string) (d : payload) : list delivery :=
  [Delivery i ev d].



(** Room names, built where the sources interpolate them. *)
Definition userRoom (id : jsval) : string := "user_" +:+ toString id.
Definition tripRoom (id : jsval) : string := "trip_" +:+ toString id.
Definition trackRoom (id : jsval) : string := "track_driver_" +:+ toString id.
Definition driverPool : string := "available_drivers".
Definition monitoringRoom : string := "emergency_monitoring".

(** The k-th [new Date().toISOString()] evaluated while one handler runs. *)
Abbreviation clock := (nat → string).

(** ** middleware/auth.js, socket side *)

Record handshake := Handshake {
  auth_token : jsval;              (* socket.handshake.auth.token *)
  authorization : option string    (* socket.handshake.headers.authorization *)
}.

Inductive next_result :=
  | NextOk
  | NextError (msg : string).

Module SocketAuth.
Section WithJwt.

(** [jwt.verify(token, secret)] of the jsonwebtoken package: the decoded
    claims, or [None] when it reports an error. *)
Variable jwt_verify : jsval → string → option jsobj.

(** [auth.token || headers.authorization?.replace('Bearer ', '')] *)
Definition handshake_token (hs : handshake) : jsval :=
  js_or (auth_token hs)
        (match authorization hs with
         | Some h => JStr (js_replace "Bearer " "" h)
         | None => JUndefined
         end).

Definition validateSocketAuth (env : environment) (hs : handshake)
    (s : socket) : socket * next_result :=
  let token := handshake_token hs in
  if negb (truthy token) then (s, NextError "Authentication token required")
  else
    let jwtSecret := env !! "JWT_SECRET" in
    if negb (present jwtSecret) then (s, NextError "Server configuration error")
    else
      match jwt_verify token (default "" jwtSecret) with
      | None => (s, NextError "Invalid token")
      | Some decoded =>
          (Socket (js_or (field decoded "user_id") (field decoded "id"))
                  (js_or (field decoded "user_type") (JStr "rider"))
                  (field decoded "email")
                  (authenticated s)
                  (rooms s),
           NextOk)
      end.

End WithJwt.
End SocketAuth.

(** ** Emissions *)

(** What a handler asks Socket.IO to send: [socket.emit(ev, d)] on the
    acting socket, or [io.to(room).emit(ev, d)]. *)
Inductive emission :=
  | ToSocket (ev : string) (d : payload)
  | ToRoom (room ev : string) (d : payload).

(** The rooms a list of emissions addresses, in order. *)
Fixpoint targets (ems : list emission) : list string :=
  match ems with
  | [] => []
  | ToSocket _ _ :: r => targets r
  | ToRoom room _ _ :: r => room :: targets r
  end.

Definition perform1 (io : server) (i : string) (em : emission) : list delivery :=
  match em with
  | ToSocket ev d => socket_emit i ev d
  | ToRoom room ev d => to_emit io room ev d
  end.

(** Carrying out the emissions of a handler that runs for socket [i]. *)
Definition perform (io : server) (i : string) (ems : list emission)
  : list delivery :=
  concat (perform1 io i <$> ems).

(** Carrying out the [io.to(...).emit(...)] calls of an HTTP handler, which
    has no socket of its own. *)
Definition broadcast (io : server) (ems : list emission) : list delivery :=
  concat ((λ em, match em with
                 | ToRoom room ev d => to_emit io room ev d
                 | ToSocket _ _ => []
                 end) <$> ems).

(** ** handlers/socketHandler.js *)

Module SocketHandler.

(** The socket events a client can send; the message is the object the
    handler destructures. *)
Inductive command :=
  | SubscribeTrip (msg : jsobj)
  | UnsubscribeTrip (msg : jsobj)
  | ToggleAvailability (msg : jsobj)
  | TrackDriver (msg : jsobj)
  | AcceptTrip (msg : jsobj)
  | RejectTrip (msg : jsobj)
  | Ping.

Definition error_msg (m : string) : emission :=
  ToSocket "error" [("message", JStr m)].

(** [handleConnection]: what runs before the handlers are registered. *)
Definition handleConnection (now : clock) (s : socket)
  : socket * list emission :=
  let s1 := join (userRoom (userId s)) s in
  let s2 := if strict_eq_str (userType s) "driver"
            then join driverPool s1 else s1 in
  (s2, [ToSocket "connected"
          [("message", JStr "Connected to Allez Middleman Server");
           ("userId", userId s);
           ("userType", userType s);
           ("timestamp", JStr (now 0%nat))]]).

Definition handleTripSubscription (s : socket) (msg : jsobj)
  : socket * list emission :=
  let trip_id := field msg "trip_id" in
  if negb (truthy trip_id)
  then (s, [error_msg "trip_id is required for subscription"])
  else (join (tripRoom trip_id) s,
        [ToSocket "trip_subscribed"
           [("trip_id", trip_id);
            ("message", JStr "Successfully subscribed to trip updates")]]).

Definition handleTripUnsubscription (s : socket) (msg : jsobj)
  : socket * list emission :=
  let trip_id := field msg "trip_id" in
  if negb (truthy trip_id)
  then (s, [error_msg "trip_id is required for unsubscription"])
  else (leave (tripRoom trip_id) s,
        [ToSocket "trip_unsubscribed"
           [("trip_id", trip_id);
            ("message", JStr "Successfully unsubscribed from trip updates")]]).

Definition handleDriverAvailability (s : socket) (msg : jsobj)
  : socket * list emission :=
  if negb (strict_eq_str (userType s) "driver")
  then (s, [error_msg "Only drivers can toggle availability"])
  else
    let is_available := field msg "is_available" in
    let s' := if truthy is_available
              then join driverPool s else leave driverPool s in
    (s', [ToSocket "availability_updated"
            [("is_available", is_available);
             ("message",
              JStr ("Driver availability set to " +:+
                    (if truthy is_available
                     then "available" else "unavailable")))]]).

Definition handleDriverTracking (s : socket) (msg : jsobj)
  : socket * list emission :=
  let driver_id := field msg "driver_id" in
  if negb (truthy driver_id)
  then (s, [error_msg "driver_id is required for tracking"])
  else (join (trackRoom driver_id) s,
        [ToSocket "driver_tracking_started"
           [("driver_id", driver_id);
            ("message",
             JStr "Successfully subscribed to driver location updates")]]).

Definition handleTripAcceptance (now : clock) (s : socket) (msg : jsobj)
  : socket * list emission :=
  if negb (strict_eq_str (userType s) "driver")
  then (s, [error_msg "Only drivers can accept trips"])
  else
    let trip_id := field msg "trip_id" in
    let estimated_arrival := field msg "estimated_arrival" in
    if negb (truthy trip_id)
    then (s, [error_msg "trip_id is required"])
    else
      let acceptanceData :=
        [("trip_id", trip_id);
         ("driver_id", userId s);
         ("status", JStr "accepted");
         ("estimated_arrival", estimated_arrival);
         ("timestamp", JStr (now 0%nat))] in
      (s, [ToRoom (tripRoom trip_id) "trip_accepted" acceptanceData;
           ToSocket "trip_acceptance_confirmed" acceptanceData]).

Definition handleTripRejection (now : clock) (s : socket) (msg : jsobj)
  : socket * list emission :=
  if negb (strict_eq_str (userType s) "driver")
  then (s, [error_msg "Only drivers can reject trips"])
  else
    let trip_id := field msg "trip_id" in
    let reason := field msg "reason" in
    if negb (truthy trip_id)
    then (s, [error_msg "trip_id is required"])
    else
      (s, [ToSocket "trip_rejection_confirmed"
             [("trip_id", trip_id);
              ("driver_id", userId s);
              ("reason", js_or reason (JStr "No reason provided"));
              ("timestamp", JStr (now 0%nat))]]).

(** The handler registered for each socket event. *)
Definition handle (now : clock) (c : command) (s : socket)
  : socket * list emission :=
  match c with
  | SubscribeTrip msg => handleTripSubscription s msg
  | UnsubscribeTrip msg => handleTripUnsubscription s msg
  | ToggleAvailability msg => handleDriverAvailability s msg
  | TrackDriver msg => handleDriverTracking s msg
  | AcceptTrip msg => handleTripAcceptance now s msg
  | RejectTrip msg => handleTripRejection now s msg
  | Ping => (s, [ToSocket "pong" [("timestamp", JStr (now 0%nat))]])
  end.

(** The life of one connection after [handleConnection]. *)
Definition run (now : clock) (cs : list command) (s : socket) : socket :=
  foldl (λ acc c, (handle now c acc).1) s cs.

End SocketHandler.

(** [v.forEach(f)]: a TypeError ([None]) unless [v] is an array; [f]
    receives the index and the element. *)
Definition forEach (v : jsval) (f : nat → jsval → list emission)
  : option (list emission) :=
  match v with
  | JArr l => Some (concat (imap f l))
  | _ => None
  end.

(** [if (c) io.to(room).emit(ev, d)] *)
Definition when (c : bool) (ems : list emission) : list emission :=
  if c then ems else [].

(** ** app.js *)

Module AppJs.

(** [process.env.LARAVEL_API_KEY || 'HKeGw>L/v9-3W4/'] *)
Definition LARAVEL_API_KEY (env : environment) : string :=
  match env !! "LARAVEL_API_KEY" with
  | Some s => if negb (String.eqb s "") then s else "HKeGw>L/v9-3W4/"
  | None => "HKeGw>L/v9-3W4/"
  end.

(** [validateApiKey]: [apiKey] is [req.headers['x-api-key']]. *)
Definition validateApiKey (env : environment) (apiKey : option string)
  : mw_outcome :=
  if negb (present apiKey) || bool_decide (apiKey ≠ Some (LARAVEL_API_KEY env))
  then Respond (Response 401 [("error", JStr "Invalid API key")])
  else Next.

(** A route handler either returns after [res.json(...)] or throws; the
    emissions made before that point stay made. *)
Inductive outcome :=
  | Returned (ems : list emission) (r : response)
  | Threw (ems : list emission).

(** [res.json({ success: true, message, ...echo })] *)
Definition success (message : string) (echo : payload) : response :=
  Response 200 (("success", JBool true) :: ("message", JStr message) :: echo).

(** Reading a property of [v] (here [v.length]) throws on [undefined]
    and [null] only. *)
Definition readable (v : jsval) : bool :=
  match v with
  | JUndefined | JNull => false
  | _ => true
  end.

Definition is_on (io : option server) : bool :=
  match io with Some _ => true | None => false end.

Section Routes.
Variable io : option server.
Variable now : clock.
Variable body : jsobj.

(** POST /api/trip/send-to-drivers and POST /api/trip/request share
    their text up to the response message. *)
Definition tripRequestRoute (message : string) : outcome :=
  let tripId := field body "tripId" in
  let riderId := field body "riderId" in
  let driverIds := field body "driverIds" in
  let tripData := field body "tripData" in
  match (if is_on io
         then forEach driverIds (λ k driverId,
                [ToRoom (userRoom driverId) "trip_request"
                   [("tripId", tripId); ("riderId", riderId);
                    ("tripData", tripData);
                    ("timestamp", JStr (now k))]])
         else Some []) with
  | None => Threw []
  | Some ems =>
      (* log(`... sent to ${driverIds.length} drivers`) *)
      if readable driverIds
      then Returned ems (success message [("tripId", tripId)])
      else Threw ems
  end.

Definition sendToDrivers : outcome := tripRequestRoute "Trip sent to drivers".

Definition accept : outcome :=
  let tripId := field body "tripId" in
  let driverId := field body "driverId" in
  let riderId := field body "riderId" in
  Returned
    (when (is_on io)
       [ToRoom (userRoom riderId) "trip_accepted"
          [("tripId", tripId); ("driverId", driverId);
           ("timestamp", JStr (now 0%nat))];
        ToRoom (userRoom driverId) "trip_accepted_confirmation"
          [("tripId", tripId); ("riderId", riderId);
           ("timestamp", JStr (now 1%nat))]])
    (success "Trip accepted" [("tripId", tripId); ("driverId", driverId)]).

Definition noLongerAvailable : outcome :=
  let tripId := field body "tripId" in
  let driverIds := field body "driverIds" in
  let reason := field body "reason" in
  match (if is_on io
         then forEach driverIds (λ k driverId,
                [ToRoom (userRoom driverId) "trip_unavailable"
                   [("tripId", tripId); ("reason", reason);
                    ("timestamp", JStr (now k))]])
         else Some []) with
  | None => Threw []
  | Some ems => Returned ems (success "Drivers notified" [("tripId", tripId)])
  end.

Definition driverArrived : outcome :=
  let tripId := field body "tripId" in
  let driverId := field body "driverId" in
  let riderId := field body "riderId" in
  Returned
    (when (is_on io)
       [ToRoom (userRoom riderId) "driver_arrived"
          [("tripId", tripId); ("driverId", driverId);
           ("timestamp", JStr (now 0%nat))]])
    (success "Rider notified of arrival" [("tripId", tripId)]).

Definition started : outcome :=
  let tripId := field body "tripId" in
  let driverId := field body "driverId" in
  let riderId := field body "riderId" in
  Returned
    (when (is_on io)
       [ToRoom (userRoom riderId) "trip_started"
          [("tripId", tripId); ("driverId", driverId);
           ("timestamp", JStr (now 0%nat))];
        ToRoom (userRoom driverId) "trip_started"
          [("tripId", tripId); ("riderId", riderId);
           ("timestamp", JStr (now 1%nat))]])
    (success "Trip started" [("tripId", tripId)]).

Definition completed : outcome :=
  let tripId := field body "tripId" in
  let driverId := field body "driverId" in
  let riderId := field body "riderId" in
  let fare := field body "fare" in
  Returned
    (when (is_on io)
       [ToRoom (userRoom riderId) "trip_completed"
          [("tripId", tripId); ("driverId", driverId); ("fare", fare);
           ("timestamp", JStr (now 0%nat))];
        ToRoom (userRoom driverId) "trip_completed"
          [("tripId", tripId); ("riderId", riderId); ("fare", fare);
           ("timestamp", JStr (now 1%nat))]])
    (success "Trip completed" [("tripId", tripId); ("fare", fare)]).

Definition cancel : outcome :=
  let tripId := field body "tripId" in
  let cancelledBy := field body "cancelledBy" in
  let reason := field body "reason" in
  let driverId := field body "driverId" in
  let riderId := field body "riderId" in
  let cancelData :=
    [("tripId", tripId); ("cancelledBy", cancelledBy);
     ("reason", reason); ("timestamp", JStr (now 0%nat))] in
  Returned
    (when (is_on io)
       (when (truthy driverId)
          [ToRoom (userRoom driverId) "trip_cancelled" cancelData] ++
        when (truthy riderId)
          [ToRoom (userRoom riderId) "trip_cancelled" cancelData]))
    (success "Trip cancelled" [("tripId", tripId)]).

(** POST /api/trip/driver-location and POST /api/driver/location share
    their text up to the response message. *)
Definition locationRoute (message : string) : outcome :=
  let driverId := field body "driverId" in
  let tripId := field body "tripId" in
  let latitude := field body "latitude" in
  let longitude := field body "longitude" in
  Returned
    (when (is_on io && truthy tripId)
       [ToRoom (tripRoom tripId) "driver_location"
          [("driverId", driverId); ("tripId", tripId);
           ("location",
            JObj [("latitude", latitude); ("longitude", longitude)]);
           ("timestamp", JStr (now 0%nat))]])
    (success message [("driverId", driverId)]).

Definition driverLocation : outcome := locationRoute "Location updated".

(** POST /api/payment/update and POST /api/trip/update: the rider
    first, then the driver. *)
Definition statusRoute (ev message : string) (extra : payload) : outcome :=
  let tripId := field body "tripId" in
  let status := field body "status" in
  let riderId := field body "riderId" in
  let driverId := field body "driverId" in
  let updateData :=
    ("tripId", tripId) :: ("status", status) ::
    (extra ++ [("timestamp", JStr (now 0%nat))]) in
  Returned
    (when (is_on io)
       (when (truthy riderId)
          [ToRoom (userRoom riderId) ev updateData] ++
        when (truthy driverId)
          [ToRoom (userRoom driverId) ev updateData]))
    (success message [("tripId", tripId)]).

Definition paymentUpdate : outcome :=
  statusRoute "payment_update" "Payment update sent"
              [("amount", field body "amount")].

Definition emergencyAlert : outcome :=
  let tripId := field body "tripId" in
  let userId := field body "userId" in
  let type := field body "type" in
  let location := field body "location" in
  Returned
    (when (is_on io)
       [ToRoom (tripRoom tripId) "emergency_alert"
          [("tripId", tripId); ("userId", userId); ("type", type);
           ("location", location); ("timestamp", JStr (now 0%nat))]])
    (success "Emergency alert sent" [("tripId", tripId)]).

Definition tripUpdate : outcome :=
  statusRoute "trip_update" "Trip status updated" [].

Definition tripRequest : outcome := tripRequestRoute "Trip request sent".

Definition legacyDriverLocation : outcome :=
  locationRoute "Driver location updated".

End Routes.

(** The POST routes registered behind [validateApiKey]. *)
Inductive endpoint :=
  | SendToDrivers | Accept | NoLongerAvailable | DriverArrived | Started
  | Completed | Cancel | DriverLocation | PaymentUpdate | EmergencyAlert
  | TripUpdate | TripRequest | LegacyDriverLocation.

Definition handler (e : endpoint) : option server → clock → jsobj → outcome :=
  match e with
  | SendToDrivers => sendToDrivers
  | Accept => accept
  | NoLongerAvailable => noLongerAvailable
  | DriverArrived => driverArrived
  | Started => started
  | Completed => completed
  | Cancel => cancel
  | DriverLocation => driverLocation
  | PaymentUpdate => paymentUpdate
  | EmergencyAlert => emergencyAlert
  | TripUpdate => tripUpdate
  | TripRequest => tripRequest
  | LegacyDriverLocation => legacyDriverLocation
  end.

Record request := Request {
  route : endpoint;
  api_key : option string;     (* req.headers['x-api-key'] *)
  body : jsobj                 (* req.body *)
}.

(** The error-handling middleware registered last. *)
Definition errorHandler : response :=
  Response 500 [("error", JStr "Internal server error")].

(** One ingestion request through Express: [validateApiKey], the route
    handler, and the error middleware if the handler throws. *)
Definition serve (env : environment) (io : option server) (now : clock)
    (req : request) : list delivery * response :=
  match validateApiKey env (api_key req) with
  | Respond r => ([], r)
  | Next =>
      match handler (route req) io now (body req) with
      | Returned ems r => (broadcast (default ∅ io) ems, r)
      | Threw ems => (broadcast (default ∅ io) ems, errorHandler)
      end
  end.

(** *** Socket handlers registered in [io.on('connection', ...)] *)

Inductive command :=
  | Authenticate (msg : jsobj)
  | JoinUserRoom (userId : jsval)
  | JoinTripRoom (tripId : jsval)
  | Ping.

(** A new connection: nothing is attached to the socket. *)
Definition onConnection (now : clock) (i : string) : socket * list emission :=
  (new_socket,
   [ToSocket "connected"
      [("socketId", JStr i); ("timestamp", JStr (now 0%nat))]]).

Definition handle (c : command) (s : socket) : socket * list emission :=
  match c with
  | Authenticate msg =>
      let token := field msg "token" in
      let userId := field msg "userId" in
      if truthy token then
        (set_authenticated (JBool true) (set_userId userId s),
         [ToSocket "authenticated"
            [("success", JBool true); ("userId", userId)]])
      else
        (set_authenticated (JBool true) s,
         [ToSocket "authenticated" [("success", JBool true)]])
  | JoinUserRoom userId =>
      (set_userId userId (join (userRoom userId) s),
       [ToSocket "joined_room" [("room", JStr (userRoom userId))]])
  | JoinTripRoom tripId =>
      (join (tripRoom tripId) s,
       [ToSocket "joined_room" [("room", JStr (tripRoom tripId))]])
  | Ping => (s, [ToSocket "pong" []])
  end.

Definition run (cs : list command) (s : socket) : socket :=
  foldl (λ acc c, (handle c acc).1) s cs.

End AppJs.

(** ** controllers/tripController.js *)

Module TripController.

Definition bad_request (msg : string) : response :=
  Response 400 [("error", JStr msg)].

Definition failed (msg : string) : response :=
  Response 500 [("error", JStr msg)].

Definition ok (message : string) (echo : payload) : response :=
  Response 200 (("success", JBool true) :: ("message", JStr message) :: echo).

Fixpoint assoc (k : string) (fs : list (string * jsval)) : option jsval :=
  match fs with
  | [] => None
  | (k', v) :: r => if String.eqb k k' then Some v else assoc k r
  end.

(** [v.length] on a value that is neither [undefined] nor [null] *)
Definition js_length (v : jsval) : jsval :=
  match v with
  | JArr l => JNum (Z.of_nat (length l))
  | JStr s => JNum (Z.of_nat (String.length s))
  | JObj fs => default JUndefined (assoc "length" fs)
  | _ => JUndefined
  end.

(** [v?.length || 0] *)
Definition length_or_0 (v : jsval) : jsval :=
  js_or (match v with
         | JUndefined | JNull => JUndefined
         | _ => js_length v
         end) (JNum 0).

Section Handlers.

(** [v > 0] for a [v] that is not a number: JavaScript's coercion of
    strings, booleans, arrays and objects to numbers is left to the
    runtime. *)
Variable coerced_gt0 : jsval → bool.

Definition gt0 (v : jsval) : bool :=
  match v with
  | JNum n => 0 <? n
  | JUndefined => false
  | _ => coerced_gt0 v
  end.

(** [if (ids && ids.length > 0) { ids.forEach(id => io.to(`user_${id}`)
    .emit(ev, d)) }]: [None] when [forEach] is not callable. *)
Definition notifyEach (ids : jsval) (ev : string) (d : payload)
  : option (list emission) :=
  if truthy ids && gt0 (js_length ids)
  then forEach ids (λ _ id, [ToRoom (userRoom id) ev d])
  else Some [].

Variable now : clock.
(** [new Date(Date.now() + 2 * 60 * 1000).toISOString()] *)
Variable deadline : string.
Variable body : jsobj.

(** The [broadcast...] functions: the emissions made, and whether the
    function ran to its end. *)

Definition broadcastTripUpdate (updateData : payload)
    (trip_id driver_id rider_id : jsval) : list emission :=
  [ToRoom (tripRoom trip_id) "trip_status_update" updateData] ++
  when (truthy driver_id)
    [ToRoom (userRoom driver_id) "trip_status_update" updateData] ++
  when (truthy rider_id)
    [ToRoom (userRoom rider_id) "trip_status_update" updateData].

Definition broadcastTripRequest (requestData : payload)
    (rider_id nearby_drivers : jsval) : list emission * bool :=
  let first := [ToRoom (userRoom rider_id) "trip_request_created" requestData] in
  match notifyEach nearby_drivers "new_trip_request" requestData with
  | None => (first, false)
  | Some each =>
      (first ++ each ++
       [ToRoom driverPool "new_trip_request" requestData], true)
  end.

(** The file declares [broadcastDriverLocation] twice; the second
    declaration, which reads [trip_id], is the one in force. *)
Definition broadcastDriverLocation (locationData : payload)
    (driver_id trip_id : jsval) : list emission :=
  when (truthy trip_id)
    [ToRoom (tripRoom trip_id) "driver_location_update" locationData] ++
  [ToRoom (trackRoom driver_id) "driver_location_update" locationData].

Definition broadcastTripToDrivers (requestData : payload)
    (rider_id nearby_drivers : jsval) : list emission * bool :=
  let first := [ToRoom (userRoom rider_id) "trip_sent_to_drivers" requestData] in
  match notifyEach nearby_drivers "new_trip_request" requestData with
  | None => (first, false)
  | Some each =>
      (first ++ each ++
       [ToRoom driverPool "new_trip_request" requestData], true)
  end.

Definition broadcastTripAcceptance (acceptanceData : payload)
    (trip_id rider_id : jsval) : list emission :=
  [ToRoom (userRoom rider_id) "trip_accepted" acceptanceData;
   ToRoom (tripRoom trip_id) "trip_accepted" acceptanceData].

Definition broadcastTripUnavailable (unavailableData : payload)
    (remainingDrivers : jsval) : list emission * bool :=
  match notifyEach remainingDrivers "trip_no_longer_available"
                   unavailableData with
  | None => ([], false)
  | Some each =>
      (each ++ [ToRoom driverPool "trip_no_longer_available"
                       unavailableData], true)
  end.

Definition broadcastDriverArrival (arrivalData : payload)
    (trip_id rider_id : jsval) : list emission :=
  [ToRoom (userRoom rider_id) "driver_arrived" arrivalData;
   ToRoom (tripRoom trip_id) "driver_arrived" arrivalData].

Definition broadcastTripStart (startData : payload)
    (trip_id driver_id rider_id : jsval) : list emission :=
  [ToRoom (userRoom rider_id) "trip_started" startData;
   ToRoom (userRoom driver_id) "trip_started" startData;
   ToRoom (tripRoom trip_id) "trip_started" startData].

Definition broadcastTripCompletion (completionData : payload)
    (trip_id driver_id rider_id : jsval) : list emission :=
  [ToRoom (userRoom rider_id) "trip_completed" completionData;
   ToRoom (userRoom driver_id) "trip_completed" completionData;
   ToRoom (tripRoom trip_id) "trip_completed" completionData].

Definition broadcastTripCancellation (cancellationData : payload)
    (trip_id driver_id rider_id : jsval) : list emission :=
  when (truthy rider_id)
    [ToRoom (userRoom rider_id) "trip_cancelled" cancellationData] ++
  when (truthy driver_id)
    [ToRoom (userRoom driver_id) "trip_cancelled" cancellationData] ++
  [ToRoom (tripRoom trip_id) "trip_cancelled" cancellationData].

Definition broadcastPaymentUpdate (paymentData : payload)
    (trip_id driver_id rider_id : jsval) : list emission :=
  when (truthy rider_id)
    [ToRoom (userRoom rider_id) "payment_update" paymentData] ++
  when (truthy driver_id)
    [ToRoom (userRoom driver_id) "payment_update" paymentData] ++
  [ToRoom (tripRoom trip_id) "payment_update" paymentData].

Definition broadcastEmergencyAlert (emergencyData : payload)
    (trip_id driver_id rider_id : jsval) : list emission :=
  when (truthy rider_id)
    [ToRoom (userRoom rider_id) "emergency_alert" emergencyData] ++
  when (truthy driver_id)
    [ToRoom (userRoom driver_id) "emergency_alert" emergencyData] ++
  [ToRoom (tripRoom trip_id) "emergency_alert" emergencyData;
   ToRoom monitoringRoom "emergency_alert" emergencyData].

(** The route handlers. Each runs inside [try]/[catch]: a throw in the
    broadcast is answered by the handler's own 500. *)

Definition updateTripStatus : list emission * response :=
  let trip_id := field body "trip_id" in
  let status := field body "status" in
  let driver_id := field body "driver_id" in
  let rider_id := field body "rider_id" in
  if negb (truthy trip_id) || negb (truthy status)
  then ([], bad_request "trip_id and status are required")
  else
    let updateData :=
      [("trip_id", trip_id); ("status", status);
       ("driver_id", driver_id); ("rider_id", rider_id);
       ("driver_location", field body "driver_location");
       ("estimated_arrival", field body "estimated_arrival");
       ("trip_data", field body "trip_data");
       ("timestamp", JStr (now 0%nat))] in
    (broadcastTripUpdate updateData trip_id driver_id rider_id,
     ok "Trip status updated successfully" [("trip_id", trip_id)]).

Definition createTripRequest : list emission * response :=
  let trip_id := field body "trip_id" in
  let rider_id := field body "rider_id" in
  let pickup_location := field body "pickup_location" in
  let nearby_drivers := field body "nearby_drivers" in
  if negb (truthy trip_id) || negb (truthy rider_id)
     || negb (truthy pickup_location)
  then ([], bad_request
              "trip_id, rider_id, and pickup_location are required")
  else
    let requestData :=
      [("trip_id", trip_id); ("rider_id", rider_id);
       ("pickup_location", pickup_location);
       ("destination", field body "destination");
       ("fare_estimate", field body "fare_estimate");
       ("trip_type", js_or (field body "trip_type") (JStr "standard"));
       ("nearby_drivers", js_or nearby_drivers (JArr []));
       ("trip_data", field body "trip_data");
       ("status", JStr "requested");
       ("timestamp", JStr (now 0%nat))] in
    match broadcastTripRequest requestData rider_id
            (js_or nearby_drivers (JArr [])) with
    | (ems, true) =>
        (ems, ok "Trip request broadcasted successfully"
                 [("trip_id", trip_id)])
    | (ems, false) => (ems, failed "Failed to create trip request")
    end.

Definition legacyUpdateDriverLocation : list emission * response :=
  let driver_id := field body "driver_id" in
  let location := field body "location" in
  let is_available := field body "is_available" in
  if negb (truthy driver_id) || negb (truthy location)
  then ([], bad_request "driver_id and location are required")
  else
    let locationData :=
      [("driver_id", driver_id); ("location", location);
       ("heading", field body "heading");
       ("speed", field body "speed");
       ("is_available",
        match is_available with
        | JUndefined => JBool true
        | _ => is_available
        end);
       ("current_trip_id", field body "current_trip_id");
       ("timestamp", JStr (now 0%nat))] in
    (* locationData has no trip_id property *)
    (broadcastDriverLocation locationData driver_id JUndefined,
     ok "Driver location updated successfully"
        [("driver_id", driver_id)]).

Definition sendTripToDrivers : list emission * response :=
  let trip_id := field body "trip_id" in
  let rider_id := field body "rider_id" in
  let pickup_location := field body "pickup_location" in
  let nearby_drivers := field body "nearby_drivers" in
  let expires_at := field body "expires_at" in
  if negb (truthy trip_id) || negb (truthy rider_id)
     || negb (truthy pickup_location) || negb (truthy nearby_drivers)
  then ([], bad_request
       "trip_id, rider_id, pickup_location, and nearby_drivers are required")
  else
    let requestData :=
      [("trip_id", trip_id); ("rider_id", rider_id);
       ("pickup_location", pickup_location);
       ("destination", field body "destination");
       ("fare_estimate", field body "fare_estimate");
       ("trip_type", js_or (field body "trip_type") (JStr "standard"));
       ("nearby_drivers", js_or nearby_drivers (JArr []));
       ("trip_data", field body "trip_data");
       ("status", JStr "sent_to_drivers");
       ("expires_at", js_or expires_at (JStr deadline));
       ("timestamp", JStr (now 0%nat))] in
    match broadcastTripToDrivers requestData rider_id
            (js_or nearby_drivers (JArr [])) with
    | (ems, true) =>
        (ems, ok "Trip sent to drivers successfully"
                 [("trip_id", trip_id);
                  ("drivers_notified", js_length nearby_drivers)])
    | (ems, false) => (ems, failed "Failed to send trip to drivers")
    end.

Definition tripAccepted : list emission * response :=
  let trip_id := field body "trip_id" in
  let driver_id := field body "driver_id" in
  let rider_id := field body "rider_id" in
  if negb (truthy trip_id) || negb (truthy driver_id)
     || negb (truthy rider_id)
  then ([], bad_request "trip_id, driver_id, and rider_id are required")
  else
    let acceptanceData :=
      [("trip_id", trip_id); ("driver_id", driver_id);
       ("rider_id", rider_id); ("status", JStr "accepted");
       ("estimated_arrival", field body "estimated_arrival");
       ("driver_location", field body "driver_location");
       ("driver_info", field body "driver_info");
       ("timestamp", JStr (now 0%nat))] in
    (broadcastTripAcceptance acceptanceData trip_id rider_id,
     ok "Trip acceptance broadcasted successfully"
        [("trip_id", trip_id); ("driver_id", driver_id)]).

Definition tripNoLongerAvailable : list emission * response :=
  let trip_id := field body "trip_id" in
  let reason := field body "reason" in
  let remaining_drivers := field body "remaining_drivers" in
  if negb (truthy trip_id) || negb (truthy reason)
  then ([], bad_request "trip_id and reason are required")
  else
    let unavailableData :=
      [("trip_id", trip_id); ("status", JStr "no_longer_available");
       ("reason", reason);
       ("accepted_by_driver_id", field body "accepted_by_driver_id");
       ("cancelled_by", field body "cancelled_by");
       ("timestamp", JStr (now 0%nat))] in
    match broadcastTripUnavailable unavailableData remaining_drivers with
    | (ems, true) =>
        (ems, ok "Trip unavailability broadcasted successfully"
                 [("trip_id", trip_id); ("reason", reason);
                  ("drivers_notified", length_or_0 remaining_drivers)])
    | (ems, false) =>
        (ems, failed "Failed to broadcast trip unavailability")
    end.

Definition driverArrived : list emission * response :=
  let trip_id := field body "trip_id" in
  let driver_id := field body "driver_id" in
  let rider_id := field body "rider_id" in
  let arrival_time := field body "arrival_time" in
  if negb (truthy trip_id) || negb (truthy driver_id)
     || negb (truthy rider_id)
  then ([], bad_request "trip_id, driver_id, and rider_id are required")
  else
    let arrivalData :=
      [("trip_id", trip_id); ("driver_id", driver_id);
       ("rider_id", rider_id); ("status", JStr "driver_arrived");
       ("arrival_location", field body "arrival_location");
       ("driver_location", field body "driver_location");
       ("arrival_time", js_or arrival_time (JStr (now 0%nat)));
       ("wait_time_limit", js_or (field body "wait_time_limit") (JNum 5));
       ("timestamp",
        JStr (now (if truthy arrival_time then 0%nat else 1%nat)))] in
    (broadcastDriverArrival arrivalData trip_id rider_id,
     ok "Driver arrival broadcasted successfully"
        [("trip_id", trip_id); ("driver_id", driver_id)]).

Definition tripStarted : list emission * response :=
  let trip_id := field body "trip_id" in
  let driver_id := field body "driver_id" in
  let rider_id := field body "rider_id" in
  if negb (truthy trip_id) || negb (truthy driver_id)
     || negb (truthy rider_id)
  then ([], bad_request "trip_id, driver_id, and rider_id are required")
  else
    let startData :=
      [("trip_id", trip_id); ("driver_id", driver_id);
       ("rider_id", rider_id); ("status", JStr "trip_started");
       ("start_location", field body "start_location");
       ("destination", field body "destination");
       ("estimated_duration", field body "estimated_duration");
       ("estimated_fare", field body "estimated_fare");
       ("start_time", JStr (now 0%nat));
       ("timestamp", JStr (now 1%nat))] in
    (broadcastTripStart startData trip_id driver_id rider_id,
     ok "Trip start broadcasted successfully"
        [("trip_id", trip_id); ("start_time", JStr (now 0%nat))]).

Definition tripCompleted : list emission * response :=
  let trip_id := field body "trip_id" in
  let driver_id := field body "driver_id" in
  let rider_id := field body "rider_id" in
  if negb (truthy trip_id) || negb (truthy driver_id)
     || negb (truthy rider_id)
  then ([], bad_request "trip_id, driver_id, and rider_id are required")
  else
    let completionData :=
      [("trip_id", trip_id); ("driver_id", driver_id);
       ("rider_id", rider_id); ("status", JStr "trip_completed");
       ("end_location", field body "end_location");
       ("trip_duration", field body "trip_duration");
       ("trip_distance", field body "trip_distance");
       ("final_fare", field body "final_fare");
       ("payment_method", field body "payment_method");
       ("rating_request",
        match field body "rating_request" with
        | JBool false => JBool false
        | _ => JBool true
        end);
       ("completion_time", JStr (now 0%nat));
       ("timestamp", JStr (now 1%nat))] in
    (broadcastTripCompletion completionData trip_id driver_id rider_id,
     ok "Trip completion broadcasted successfully"
        [("trip_id", trip_id); ("completion_time", JStr (now 0%nat))]).

Definition tripCancelled : list emission * response :=
  let trip_id := field body "trip_id" in
  let driver_id := field body "driver_id" in
  let rider_id := field body "rider_id" in
  let cancelled_by := field body "cancelled_by" in
  if negb (truthy trip_id) || negb (truthy cancelled_by)
  then ([], bad_request "trip_id and cancelled_by are required")
  else
    let cancellationData :=
      [("trip_id", trip_id); ("driver_id", driver_id);
       ("rider_id", rider_id); ("status", JStr "trip_cancelled");
       ("cancelled_by", cancelled_by);
       ("cancellation_reason", field body "cancellation_reason");
       ("cancellation_fee", field body "cancellation_fee");
       ("refund_amount", field body "refund_amount");
       ("cancellation_time", JStr (now 0%nat));
       ("timestamp", JStr (now 1%nat))] in
    (broadcastTripCancellation cancellationData trip_id driver_id rider_id,
     ok "Trip cancellation broadcasted successfully"
        [("trip_id", trip_id); ("cancelled_by", cancelled_by)]).

Definition updateDriverLocation : list emission * response :=
  let driver_id := field body "driver_id" in
  let trip_id := field body "trip_id" in
  let location := field body "location" in
  if negb (truthy driver_id) || negb (truthy location)
  then ([], bad_request "driver_id and location are required")
  else
    let locationData :=
      [("driver_id", driver_id); ("trip_id", trip_id);
       ("location", location);
       ("heading", field body "heading");
       ("speed", field body "speed");
       ("estimated_arrival", field body "estimated_arrival");
       ("distance_to_pickup", field body "distance_to_pickup");
       ("distance_to_destination", field body "distance_to_destination");
       ("timestamp", JStr (now 0%nat))] in
    (broadcastDriverLocation locationData driver_id trip_id,
     ok "Driver location updated successfully"
        [("driver_id", driver_id)]).

Definition paymentUpdate : list emission * response :=
  let trip_id := field body "trip_id" in
  let driver_id := field body "driver_id" in
  let rider_id := field body "rider_id" in
  let payment_status := field body "payment_status" in
  if negb (truthy trip_id) || negb (truthy payment_status)
  then ([], bad_request "trip_id and payment_status are required")
  else
    let paymentData :=
      [("trip_id", trip_id); ("driver_id", driver_id);
       ("rider_id", rider_id); ("payment_status", payment_status);
       ("payment_method", field body "payment_method");
       ("amount", field body "amount");
       ("transaction_id", field body "transaction_id");
       ("failure_reason", field body "failure_reason");
       ("timestamp", JStr (now 0%nat))] in
    (broadcastPaymentUpdate paymentData trip_id driver_id rider_id,
     ok "Payment update broadcasted successfully"
        [("trip_id", trip_id); ("payment_status", payment_status)]).

Definition emergencyAlert : list emission * response :=
  let trip_id := field body "trip_id" in
  let driver_id := field body "driver_id" in
  let rider_id := field body "rider_id" in
  let alert_type := field body "alert_type" in
  let triggered_by := field body "triggered_by" in
  if negb (truthy trip_id) || negb (truthy alert_type)
     || negb (truthy triggered_by)
  then ([], bad_request
              "trip_id, alert_type, and triggered_by are required")
  else
    let emergencyData :=
      [("trip_id", trip_id); ("driver_id", driver_id);
       ("rider_id", rider_id); ("alert_type", alert_type);
       ("location", field body "location");
       ("triggered_by", triggered_by);
       ("emergency_contacts", field body "emergency_contacts");
       ("additional_info", field body "additional_info");
       ("alert_time", JStr (now 0%nat));
       ("timestamp", JStr (now 1%nat))] in
    (broadcastEmergencyAlert emergencyData trip_id driver_id rider_id,
     ok "Emergency alert broadcasted successfully"
        [("trip_id", trip_id); ("alert_type", alert_type);
         ("alert_time", JStr (now 0%nat))]).

End Handlers.

(** The event kinds the controller exports a handler for. *)
Inductive kind :=
  | SendToDrivers | Accepted | NoLongerAvailable | DriverArrived | Started
  | Completed | Cancelled | LocationUpdate | PaymentUpdate | EmergencyAlert
  | TripUpdate | TripRequest | LegacyLocation.

Definition handler (coerced_gt0 : jsval → bool) (now : clock)
    (deadline : string) (k : kind) (body : jsobj)
  : list emission * response :=
  match k with
  | SendToDrivers => sendTripToDrivers coerced_gt0 now deadline body
  | Accepted => tripAccepted now body
  | NoLongerAvailable => tripNoLongerAvailable coerced_gt0 now body
  | DriverArrived => driverArrived now body
  | Started => tripStarted now body
  | Completed => tripCompleted now body
  | Cancelled => tripCancelled now body
  | LocationUpdate => updateDriverLocation now body
  | PaymentUpdate => paymentUpdate now body
  | EmergencyAlert => emergencyAlert now body
  | TripUpdate => updateTripStatus now body
  | TripRequest => createTripRequest coerced_gt0 now body
  | LegacyLocation => legacyUpdateDriverLocation now body
  end.

End TripController.

(** ** server.js: the modular server *)

Module Server.

Record request := Request {
  route : TripController.kind;
  api_key : option string;     (* req.headers['x-api-key'] *)
  body : jsobj                 (* req.body *)
}.

(** One ingestion request: [validateBackendAuth], then the controller's
    handler, whose emissions go to the rooms' members. *)
Definition serve (coerced_gt0 : jsval → bool) (env : environment)
    (io : server) (now : clock) (deadline : string) (req : request)
  : list delivery * response :=
  match (Auth.validateBackendAuth env (api_key req)).1 with
  | Respond r => ([], r)
  | Next =>
      let '(ems, r) :=
        TripController.handler coerced_gt0 now deadline (route req) (body req) in
      (broadcast io ems, r)
  end.

Section Connections.

Variable jwt_verify : jsval → string → option jsobj.
Variable env : environment.

(** [io.use(validateSocketAuth)] then [io.on('connection', ...)]: the
    connection exists only when the middleware calls [next()] without
    an error; otherwise the client is told the error and dropped. *)
Definition connect (now : clock) (i : string) (hs : handshake)
    (io : server) : server * list delivery * next_result :=
  match SocketAuth.validateSocketAuth jwt_verify env hs new_socket with
  | (s, NextOk) =>
      let '(s', ems) := SocketHandler.handleConnection now s in
      let io' := <[i := s']> io in
      (io', perform io' i ems, NextOk)
  | (_, NextError msg) => (io, [], NextError msg)
  end.

(** A socket event arriving on connection [i]. *)
Definition command (now : clock) (i : string)
    (c : SocketHandler.command) (io : server) : server * list delivery :=
  match io !! i with
  | None => (io, [])
  | Some s =>
      let '(s', ems) := SocketHandler.handle now c s in
      let io' := <[i := s']> io in
      (io', perform io' i ems)
  end.

(** Transport-level disconnect: Socket.IO drops the socket and with it
    all its room memberships. *)
Definition disconnect (i : string) (io : server) : server := delete i io.

Inductive io_event :=
  | Connect (now : clock) (i : string) (hs : handshake)
  | Command (now : clock) (i : string) (c : SocketHandler.command)
  | Disconnect (i : string).

(** Socket ids are fresh: a connection under an id in use cannot occur. *)
Definition step (io : server) (e : io_event) : server :=
  match e with
  | Connect now i hs =>
      match io !! i with
      | None => (connect now i hs io).1.1
      | Some _ => io
      end
  | Command now i c => (command now i c io).1
  | Disconnect i => disconnect i io
  end.

Definition run (trace : list io_event) : server := foldl step ∅ trace.

End Connections.

End Server.

(** ** String.prototype.split and Array.prototype.includes *)

(** [s.split(c)] for a one-character separator *)
Fixpoint js_split (c : Ascii.ascii) (s : string) : list string :=
  match s with
  | EmptyString => [EmptyString]
  | String a r =>
      if Ascii.eqb a c then EmptyString :: js_split c r
      else match js_split c r with
           | [] => [String a EmptyString]
           | p :: ps => String a p :: ps
           end
  end.

(** [l.includes(x)] for an array of strings and an [x] that is a string
    or [undefined] *)
Definition includes (l : list string) (x : option string) : bool :=
  match x with
  | Some s => bool_decide (s ∈ l)
  | None => false
  end.

(** ** app.js: CORS and the route table around the ingestion routes *)

Module AppHttp.

(** [process.env.ALLOWED_ORIGINS || '...'] *)
Definition ALLOWED_ORIGINS (env : environment) : string :=
  match env !! "ALLOWED_ORIGINS" with
  | Some s =>
      if negb (String.eqb s "") then s
      else "http://localhost:3000,https://dev.allezadmin.com,https://allezadmin.com,http://localhost:8081,http://10.0.2.2:8081"
  | None =>
      "http://localhost:3000,https://dev.allezadmin.com,https://allezadmin.com,http://localhost:8081,http://10.0.2.2:8081"
  end.

(** [ALLOWED_ORIGINS.split(',')] *)
Definition allowedOrigins (env : environment) : list string :=
  js_split ","%char (ALLOWED_ORIGINS env).

(** The headers the CORS middleware sets; [origin] is
    [req.headers.origin]. *)
Definition corsHeaders (env : environment) (origin : option string)
  : list (string * string) :=
  (if includes (allowedOrigins env) origin || negb (present origin)
   then [("Access-Control-Allow-Origin",
          if present origin then default "" origin else "*")]
   else []) ++
  [("Access-Control-Allow-Methods", "GET, POST, PUT, DELETE, OPTIONS");
   ("Access-Control-Allow-Headers",
    "Origin, X-Requested-With, Content-Type, Accept, Authorization, X-API-Key");
   ("Access-Control-Allow-Credentials", "true")].

(** The [origin] function given to Socket.IO: what [callback] receives. *)
Definition socketOriginAllowed (env : environment) (origin : option string)
  : bool :=
  if negb (present origin) then true
  else if includes (allowedOrigins env) origin then true
  else
    let o := default "" origin in
    contains "localhost" o || contains "127.0.0.1" o || contains "10.0.2.2" o.

(** What the client is sent: [res.json(...)] or [res.sendStatus(code)]. *)
Inductive answer :=
  | Json (r : response)
  | SendStatus (code : nat).

(** A request addressed to the path of one of the ingestion routes. *)
Record http_request := HttpRequest {
  method : string;             (* req.method *)
  origin : option string;      (* req.headers.origin *)
  request : AppJs.request
}.

(** The 404 handler registered with [app.use('*', ...)]. *)
Definition notFound : response :=
  Response 404 [("error", JStr "Route not found")].

(** The middleware chain for such a request: CORS, then the POST route
    with its [validateApiKey], else the 404 handler. *)
Definition handle (env : environment) (io : option server) (now : clock)
    (h : http_request) : list (string * string) * list delivery * answer :=
  let hs := corsHeaders env (origin h) in
  if String.eqb (method h) "OPTIONS" then (hs, [], SendStatus 200)
  else if String.eqb (method h) "POST" then
    let '(ds, r) := AppJs.serve env io now (request h) in (hs, ds, Json r)
  else (hs, [], Json notFound).

(** The socket events app.js registers a listener for in
    [io.on('connection', ...)]. *)
Definition listens (name : string) : bool :=
  bool_decide (name ∈ ["authenticate"; "join_user_room"; "join_trip_room";
                       "ping"; "disconnect"]).

End AppHttp.

(** ** middleware/auth.js: [validateJWT] *)

Module HttpAuth.
Section WithJwt.

(** [jwt.verify(token, secret)] where the secret may be [undefined]: the
    decoded claims, or [None] when the library reports an error. *)
Variable jwt_verify : string → option string → option jsobj.

(** [authHeader && authHeader.split(' ')[1]] *)
Definition bearer_token (authHeader : option string) : option string :=
  match authHeader with
  | Some h => if negb (String.eqb h "") then js_split " "%char h !! 1%nat else Some h
  | None => None
  end.

(** [validateJWT]: the outcome, and [req.user] when it is set. *)
Definition validateJWT (env : environment) (authHeader : option string)
  : mw_outcome * option jsobj :=
  let token := bearer_token authHeader in
  if negb (present token) then
    (Respond (Response 401 [("error", JStr "Access token required")]), None)
  else
    match jwt_verify (default "" token) (env !! "JWT_SECRET") with
    | None =>
        (Respond (Response 403 [("error", JStr "Invalid or expired token")]),
         None)
    | Some decoded => (Next, Some decoded)
    end.

End WithJwt.
End HttpAuth.

(** ** The socket events the modular server listens for *)

Module Events.

(** [socket.on(name, ...)] in [handleConnection]: the command a message
    named [name] with object [msg] runs ('disconnect' and 'error', which
    the transport raises, apart). *)
Definition listener (name : string) (msg : jsobj)
  : option SocketHandler.command :=
  if String.eqb name "subscribe_trip" then Some (SocketHandler.SubscribeTrip msg)
  else if String.eqb name "unsubscribe_trip"
  then Some (SocketHandler.UnsubscribeTrip msg)
  else if String.eqb name "toggle_availability"
  then Some (SocketHandler.ToggleAvailability msg)
  else if String.eqb name "track_driver" then Some (SocketHandler.TrackDriver msg)
  else if String.eqb name "accept_trip" then Some (SocketHandler.AcceptTrip msg)
  else if String.eqb name "reject_trip" then Some (SocketHandler.RejectTrip msg)
  else if String.eqb name "ping" then Some SocketHandler.Ping
  else None.

End Events.

(** ** The client library (AllezRealtimeClient) *)

Module Client.

(** The fields of the class: handlers are named by numbers; the socket is
    present or [null]. *)
Record client := Build {
  has_socket : bool;                       (* this.socket *)
  isConnected : bool;
  eventHandlers : gmap string (list nat)   (* Map<event, handler[]> *)
}.

(** The constructor. *)
Definition create : client := Build false false ∅.

(** [on(event, handler)] *)
Definition on (event : string) (handler : nat) (c : client) : client :=
  let hs := default [] (eventHandlers c !! event) in
  Build (has_socket c) (isConnected c)
        (<[event := hs ++ [handler]]> (eventHandlers c)).

(** [handlers.splice(handlers.indexOf(h), 1)] when [h] occurs *)
Fixpoint remove_first (h : nat) (l : list nat) : list nat :=
  match l with
  | [] => []
  | x :: r => if Nat.eqb x h then r else x :: remove_first h r
  end.

(** [off(event, handler)] *)
Definition off (event : string) (handler : nat) (c : client) : client :=
  match eventHandlers c !! event with
  | None => c
  | Some hs =>
      Build (has_socket c) (isConnected c)
            (<[event := remove_first handler hs]> (eventHandlers c))
  end.

(** [emit(event, data)]: the handlers called, in order; a handler that
    throws is caught and the next one still runs. *)
Definition emit (event : string) (c : client) : list nat :=
  default [] (eventHandlers c !! event).

(** A message handed to [this.socket.emit]. *)
Abbreviation message := (string * payload)%type.

(** The methods that send a socket message: each returns [false] and
    sends nothing unless [isConnected]. *)
Definition send (c : client) (m : message) : bool * list message :=
  if negb (isConnected c) then (false, []) else (true, [m]).

Definition subscribeToTrip (tripId : jsval) (c : client) :=
  send c ("subscribe_trip", [("trip_id", tripId)]).

Definition unsubscribeFromTrip (tripId : jsval) (c : client) :=
  send c ("unsubscribe_trip", [("trip_id", tripId)]).

Definition toggleAvailability (isAvailable : jsval) (c : client) :=
  send c ("toggle_availability", [("is_available", isAvailable)]).

Definition trackDriver (driverId : jsval) (c : client) :=
  send c ("track_driver", [("driver_id", driverId)]).

Definition acceptTrip (tripId estimatedArrival : jsval) (c : client) :=
  send c ("accept_trip",
          [("trip_id", tripId); ("estimated_arrival", estimatedArrival)]).

Definition rejectTrip (tripId reason : jsval) (c : client) :=
  send c ("reject_trip", [("trip_id", tripId); ("reason", reason)]).

Definition ping (c : client) := send c ("ping", []).

(** [disconnect()] *)
Definition disconnect (c : client) : client :=
  if has_socket c then Build false false (eventHandlers c) else c.

(** [connect(userToken)]: a socket in use is dropped first. *)
Definition connect (c : client) : client :=
  Build true (isConnected (disconnect c)) (eventHandlers c).

(** The socket's own 'connect' and 'disconnect' events, as
    [setupEventHandlers] handles them: the flag, and the handlers told. *)
Definition onSocketConnect (c : client) : client * list nat :=
  let c' := Build (has_socket c) true (eventHandlers c) in
  (c', emit "connected" c').

Definition onSocketDisconnect (c : client) : client * list nat :=
  let c' := Build (has_socket c) false (eventHandlers c) in
  (c', emit "disconnected" c').

End Client.

(** * Notions used to state the properties *)

(** The three answers of the backend credential check. *)
Definition key_required : response :=
  Response 401 [("error", JStr "API key required")].
Definition invalid_key : response :=
  Response 401 [("error", JStr "Invalid API key")].
Definition misconfigured : response :=
  Response 500 [("error", JStr "Server configuration error")].





(** The identity the sources attach to a socket. *)
Definition identity (s : socket) : jsval * jsval * jsval :=
  (userId s, userType s, userEmail s).

(** The authorization rule per channel: a personal room belongs to the
    identity whose id it names, the driver pool is for sockets whose type
    is "driver"; the other rooms are open to every connection. *)
Definition authorized (s : socket) (room : string) : Prop :=
  (∀ x, room = "user_" +:+ x → x = toString (userId s)) ∧
  (room = driverPool → userType s = JStr "driver").




(** Whether character [c] occurs in [s]. *)
Fixpoint has_char (c : Ascii.ascii) (s : string) : bool :=
  match s with
  | EmptyString => false
  | String a r => Ascii.eqb a c || has_char c r
  end.

(** The value of a response header, if it was set. *)
Fixpoint header (name : string) (hs : list (string * string)) : option string :=
  match hs with
  | [] => None
  | (n, v) :: r => if String.eqb name n then Some v else header name r
  end.

(** The emissions a route handler of app.js made, however it ended. *)
Definition emissions_of (o : AppJs.outcome) : list emission :=
  match o with
  | AppJs.Returned ems _ => ems
  | AppJs.Threw ems => ems
  end.



(** The event kinds whose handler broadcasts to the trip's room. *)
Definition to_trip_room (k : TripController.kind) : bool :=
  match k with
  | TripController.Accepted | TripController.DriverArrived
  | TripController.Started | TripController.Completed
  | TripController.Cancelled | TripController.PaymentUpdate
  | TripController.EmergencyAlert | TripController.TripUpdate => true
  | _ => false
  end.

(** What the seven command methods of the client library send, called
    with arguments [a] and [b]. *)
Definition client_sends (c : Client.client) (a b : jsval)
  : list (bool * list (string * payload)) :=
  [Client.subscribeToTrip a c; Client.unsubscribeFromTrip a c;
   Client.toggleAvailability a c; Client.trackDriver a c;
   Client.acceptTrip a b c; Client.rejectTrip a b c; Client.ping c].

(** * Sample requests, sockets and sessions *)

Definition sample_key : option string := Some "HKeGw>L/v9-3W4/".

Definition sample_now : clock := λ _, "2024-01-01T00:00:00.000Z".

Definition accept_body : jsobj :=
  <["tripId" := JStr "T1"]> (<["driverId" := JStr "D1"]>
    {["riderId" := JStr "R1"]}).



Definition in_trip_room_only : socket :=
  (AppJs.handle (AppJs.JoinTripRoom (JStr "T1")) new_socket).1.


Definition emergency_body : jsobj :=
  <["tripId" := JStr "T1"]> (<["userId" := JStr "R1"]>
    (<["riderId" := JStr "R1"]> (<["driverId" := JStr "D1"]>
      {["type" := JStr "sos"]}))).

(** A stand-in for [jwt.verify]: one token is good, under one secret. *)
Definition toy_jwt (token : jsval) (secret : string) : option jsobj :=
  match token with
  | JStr "good" =>
      if String.eqb secret "s3cret"
      then Some (<["user_id" := JStr "u1"]> {["user_type" := JStr "driver"]})
      else None
  | _ => None
  end.

Definition jwt_env : environment := {["JWT_SECRET" := "s3cret"]}.

Definition authenticate_u1 : AppJs.command :=
  AppJs.Authenticate (<["token" := JStr "t"]> {["userId" := JStr "u1"]}).


Definition driver_socket : socket :=
  Socket (JStr "u1") (JStr "driver") JUndefined JUndefined
         ({["trip_T1"]} ∪ ({["available_drivers"]} ∪ {["user_u1"]})).


(** A stand-in for [jwt.verify] whose tokens carry an e-mail only. *)
Definition anonymous_jwt (token : jsval) (secret : string) : option jsobj :=
  match token with
  | JStr "anon" => Some {["email" := JStr "a@example.com"]}
  | _ => None
  end.

(** * Properties *)

(** ** Strings and truthiness *)

Lemma strip_prefix_app (p t : string) : strip_prefix p (p +:+ t) = Some t.
Proof.
  induction p as [|a p IH]; simpl.
  - by destruct t.
  - by rewrite Ascii.eqb_refl.
Qed.

Lemma js_replace_prefix (p r t : string) : js_replace p r (p +:+ t) = r +:+ t.
Proof.
  destruct (p +:+ t) eqn:E; simpl; rewrite <- E, strip_prefix_app; done.
Qed.


(** ** Rooms, members and recipients *)










(** ** The socket token: header and handshake field *)

(** C8. A token supplied as [Authorization: Bearer <token>] and the same
    token supplied in the handshake [auth.token] field give the same result
    of [validateSocketAuth]: the same identity attached to the socket on
    success, the same error otherwise. *)
Theorem bearer_header_equals_auth_field
    (jwt_verify : jsval → string → option jsobj) (env : environment)
    (tok : string) (s : socket) :
  SocketAuth.validateSocketAuth jwt_verify env
    (Handshake JUndefined (Some ("Bearer " +:+ tok))) s
  = SocketAuth.validateSocketAuth jwt_verify env
      (Handshake (JStr tok) None) s.
Proof.
  unfold SocketAuth.validateSocketAuth, SocketAuth.handshake_token.
  cbn [auth_token authorization].
  rewrite js_replace_prefix. unfold js_or.
  change (truthy JUndefined) with false. cbn iota.
  change ("" +:+ tok) with tok.
  destruct (truthy (JStr tok)) eqn:E; cbn iota; [by rewrite E | done].
Qed.

(** ** The backend credential verifier *)

(** C5, as stated, fails at two inputs. With no expected key configured
    and no key presented, [validateBackendAuth] answers 401 "API key
    required", not the 500 of a misconfigured server. And app.js's
    [validateApiKey] gives a request without a key the "Invalid API key"
    answer it gives a wrong key, not a missing-key one. *)
Lemma backend_credential_misreports :
  (present ((∅ : environment) !! "LARAVEL_API_KEY") = false ∧
   Auth.validateBackendAuth ∅ None = (Respond key_required, [])) ∧
  (AppJs.validateApiKey ∅ None = Respond invalid_key ∧
   AppJs.validateApiKey ∅ (Some "k2") = Respond invalid_key).
Proof. repeat split; reflexivity. Qed.

(** C5, amended. [validateBackendAuth] answers 401 "API key required" when
    no key is presented, whatever the configuration; when a key is
    presented and no expected key is configured it answers 500 "Server
    configuration error" with an error-level log entry and the handler is
    not run; when a key is presented that differs from the configured one
    it answers 401 "Invalid API key" with a warning. app.js's
    [validateApiKey] answers 401 "Invalid API key" when no key is
    presented. *)
Theorem backend_credential_answers (env : environment) (key : option string) :
  (present key = false →
     Auth.validateBackendAuth env key = (Respond key_required, [])) ∧
  (present key = true → present (env !! "LARAVEL_API_KEY") = false →
     Auth.validateBackendAuth env key
       = (Respond misconfigured, [(LogError, "LARAVEL_API_KEY not configured")])
     ∧ ∀ g io now dl k body,
         Server.serve g env io now dl (Server.Request k key body)
         = ([], misconfigured)) ∧
  (present key = true → present (env !! "LARAVEL_API_KEY") = true →
     key ≠ env !! "LARAVEL_API_KEY" →
     Auth.validateBackendAuth env key
       = (Respond invalid_key, [(LogWarn, "Invalid API key attempt")])) ∧
  (present key = false → AppJs.validateApiKey env key = Respond invalid_key).
Proof.
  unfold Auth.validateBackendAuth, Server.serve, Auth.validateBackendAuth,
    AppJs.validateApiKey.
  cbn [Server.api_key].
  split; [|split; [|split]].
  - by intros ->.
  - intros -> ->. done.
  - intros -> -> Hne. cbn. by rewrite bool_decide_eq_true_2.
  - by intros ->.
Qed.

Lemma backend_credential_answers_witness :
  (present None = false ∧
   Auth.validateBackendAuth {["LARAVEL_API_KEY" := "k1"]} None
     = (Respond key_required, [])) ∧
  (present (Some "k1") = true ∧
   present ((∅ : environment) !! "LARAVEL_API_KEY") = false ∧
   Auth.validateBackendAuth ∅ (Some "k1")
     = (Respond misconfigured,
        [(LogError, "LARAVEL_API_KEY not configured")])) ∧
  (present (Some "k2") = true ∧
   Some "k2" ≠ ({["LARAVEL_API_KEY" := "k1"]} : environment) !! "LARAVEL_API_KEY" ∧
   Auth.validateBackendAuth {["LARAVEL_API_KEY" := "k1"]} (Some "k2")
     = (Respond invalid_key, [(LogWarn, "Invalid API key attempt")])) ∧
  AppJs.validateApiKey {["LARAVEL_API_KEY" := "k1"]} None = Respond invalid_key.
Proof.
  split; [|split; [|split]].
  - split; [reflexivity |].
    apply (backend_credential_answers {["LARAVEL_API_KEY" := "k1"]} None).
    reflexivity.
  - split; [reflexivity | split; [reflexivity |]].
    apply (backend_credential_answers ∅ (Some "k1")); reflexivity.
  - split; [reflexivity | split; [vm_compute; discriminate |]].
    apply (backend_credential_answers {["LARAVEL_API_KEY" := "k1"]} (Some "k2"));
      [reflexivity | reflexivity | vm_compute; discriminate].
  - apply (backend_credential_answers {["LARAVEL_API_KEY" := "k1"]} None).
    reflexivity.
Defined.

(** ** app.js: the API key gate *)

(** C9. In app.js the configured key is never empty, because of the
    hard-coded fallback; [validateApiKey] either passes or answers 401
    "Invalid API key", so it has no 500 outcome; and every ingestion route
    answers exactly that 401, with nothing emitted, when the x-api-key
    header is absent or differs from the configured key. *)
Theorem app_api_key_gate (env : environment) (key : option string) :
  present (Some (AppJs.LARAVEL_API_KEY env)) = true ∧
  (AppJs.validateApiKey env key = Next
   ∨ AppJs.validateApiKey env key = Respond invalid_key) ∧
  (key = None ∨ key ≠ Some (AppJs.LARAVEL_API_KEY env) →
   ∀ io now e body,
     AppJs.serve env io now (AppJs.Request e key body) = ([], invalid_key)).
Proof.
  split; [|split].
  - unfold AppJs.LARAVEL_API_KEY. destruct (env !! "LARAVEL_API_KEY") as [s|];
      [|done]. simpl. destruct (String.eqb s "") eqn:E; simpl; [done |].
    by rewrite E.
  - unfold AppJs.validateApiKey. destruct (_ || _); auto.
  - intros H io now e body. unfold AppJs.serve, AppJs.validateApiKey.
    cbn [AppJs.api_key].
    destruct H as [-> | H]; [done |].
    rewrite (bool_decide_eq_true_2 _ H), orb_true_r. done.
Qed.

Lemma app_api_key_gate_witness :
  AppJs.serve ∅ None (λ _, "t") (AppJs.Request AppJs.Accept None ∅)
    = ([], invalid_key) ∧
  (Some "k2" ≠ Some (AppJs.LARAVEL_API_KEY {["LARAVEL_API_KEY" := "k1"]}) ∧
   AppJs.serve {["LARAVEL_API_KEY" := "k1"]} None (λ _, "t")
     (AppJs.Request AppJs.EmergencyAlert (Some "k2") ∅) = ([], invalid_key)).
Proof.
  split.
  - apply (app_api_key_gate ∅ None). by left.
  - split; [vm_compute; discriminate |].
    apply (app_api_key_gate {["LARAVEL_API_KEY" := "k1"]} (Some "k2")).
    right. vm_compute. discriminate.
Defined.

(** ** app.js: the ingestion routes *)





(** ** Required fields *)






(** On the routes of app.js that iterate [driverIds], a body without that
    field makes the handler throw, and the error middleware answers 500. *)
Lemma app_send_to_drivers_without_driverIds_is_500 :
  AppJs.serve ∅ (Some ∅) sample_now
    (AppJs.Request AppJs.SendToDrivers sample_key
       (<["tripId" := JStr "T1"]> {["riderId" := JStr "R1"]}))
  = ([], Response 500 [("error", JStr "Internal server error")]).
Proof. reflexivity. Qed.



(** ** Routing: who is handed an event *)







(** ** Emergency alerts *)




(** ** Identity binding *)




Section ServerSteps.

Variable jwt_verify : jsval → string → option jsobj.
Variable env : environment.





End ServerSteps.







(** ** Channel authorization *)

Lemma authorized_identity s s' room :
  identity s' = identity s → authorized s room → authorized s' room.
Proof. unfold identity, authorized. intros [= -> -> _]. done. Qed.















(** * Further properties of the sources *)

(** ** Room names *)


Lemma userRoom_not_driverPool a : userRoom a ≠ driverPool.
Proof. unfold userRoom, driverPool. cbn. discriminate. Qed.


(** ** The modular server: sockets and their rooms *)








(** X4. After a driver's "toggle_availability" the socket is in the driver
    pool exactly when the flag it sent is truthy, whatever it was before,
    and its other rooms and its identity are untouched. *)
Theorem toggle_sets_pool_membership (s : socket) (msg : jsobj) :
  userType s = JStr "driver" →
  let s' := (SocketHandler.handleDriverAvailability s msg).1 in
  (driverPool ∈ rooms s' ↔ truthy (field msg "is_available") = true) ∧
  rooms s' ∖ {[driverPool]} = rooms s ∖ {[driverPool]} ∧
  identity s' = identity s.
Proof.
  intros Hd. unfold SocketHandler.handleDriverAvailability. rewrite Hd. cbn.
  destruct (truthy (field msg "is_available")); cbn.
  - split; [split; [done | set_solver] |]. split; [set_solver | done].
  - split; [split; [set_solver | done] |]. split; [set_solver | done].
Qed.

Lemma toggle_sets_pool_membership_witness :
  userType driver_socket = JStr "driver" ∧
  (driverPool ∈ rooms (SocketHandler.handleDriverAvailability driver_socket
                         {["is_available" := JBool false]}).1
   ↔ truthy (field ({["is_available" := JBool false]} : jsobj)
                   "is_available") = true).
Proof.
  split; [reflexivity |].
  exact (proj1 (toggle_sets_pool_membership driver_socket
                  {["is_available" := JBool false]} eq_refl)).
Defined.







(** ** The modular server: what a connection is bound to *)

Lemma validateSocketAuth_accepts jwt_verify env hs s decoded :
  truthy (SocketAuth.handshake_token hs) = true →
  present (env !! "JWT_SECRET") = true →
  jwt_verify (SocketAuth.handshake_token hs)
             (default "" (env !! "JWT_SECRET")) = Some decoded →
  SocketAuth.validateSocketAuth jwt_verify env hs s
  = (Socket (js_or (field decoded "user_id") (field decoded "id"))
            (js_or (field decoded "user_type") (JStr "rider"))
            (field decoded "email") (authenticated s) (rooms s), NextOk).
Proof.
  intros Ht Hs Hj. unfold SocketAuth.validateSocketAuth.
  by rewrite Ht, Hs, Hj.
Qed.







(** X9. A verified token without a user_type claim binds the role
    "rider": the connection is not in the driver pool, and its
    availability toggles, acceptances and rejections are each answered
    with an error and change nothing. *)
Theorem default_role_is_rider jwt_verify env hs now (decoded : jsobj) :
  truthy (SocketAuth.handshake_token hs) = true →
  present (env !! "JWT_SECRET") = true →
  jwt_verify (SocketAuth.handshake_token hs)
             (default "" (env !! "JWT_SECRET")) = Some decoded →
  truthy (field decoded "user_type") = false →
  let s := (SocketHandler.handleConnection now
              (SocketAuth.validateSocketAuth jwt_verify env hs new_socket).1).1 in
  userType s = JStr "rider" ∧
  (driverPool ∉ rooms s) ∧
  ∀ now' msg,
    SocketHandler.handle now' (SocketHandler.ToggleAvailability msg) s
      = (s, [SocketHandler.error_msg "Only drivers can toggle availability"]) ∧
    SocketHandler.handle now' (SocketHandler.AcceptTrip msg) s
      = (s, [SocketHandler.error_msg "Only drivers can accept trips"]) ∧
    SocketHandler.handle now' (SocketHandler.RejectTrip msg) s
      = (s, [SocketHandler.error_msg "Only drivers can reject trips"]).
Proof.
  intros Ht Hs Hj Hrole.
  rewrite (validateSocketAuth_accepts _ _ _ _ _ Ht Hs Hj).
  unfold js_or at 2. rewrite Hrole.
  cbn [fst SocketHandler.handleConnection userType strict_eq_str String.eqb
       Ascii.eqb Bool.eqb].
  split; [done |]. split.
  - cbn. intros Hin. apply elem_of_union in Hin as [Hin | Hin]; [| set_solver].
    apply elem_of_singleton in Hin. symmetry in Hin.
    by apply userRoom_not_driverPool in Hin.
  - done.
Qed.

Lemma default_role_is_rider_witness :
  truthy (SocketAuth.handshake_token (Handshake (JStr "anon") None)) = true ∧
  truthy (field ({["email" := JStr "a@example.com"]} : jsobj) "user_type")
    = false ∧
  userType (SocketHandler.handleConnection sample_now
              (SocketAuth.validateSocketAuth anonymous_jwt jwt_env
                 (Handshake (JStr "anon") None) new_socket).1).1
  = JStr "rider".
Proof.
  split; [reflexivity |]. split; [reflexivity |].
  exact (proj1 (default_role_is_rider anonymous_jwt jwt_env
           (Handshake (JStr "anon") None) sample_now
           {["email" := JStr "a@example.com"]}
           eq_refl eq_refl eq_refl eq_refl)).
Defined.

(** ** Tokens in headers *)

Lemma js_replace_absent (pat rep s : string) :
  contains pat s = false → js_replace pat rep s = s.
Proof.
  induction s as [|c s IH]; cbn.
  - by destruct (strip_prefix pat "").
  - destruct (strip_prefix pat (String c s)); [discriminate |].
    intros H. by rewrite IH.
Qed.

(** X10. [validateSocketAuth] takes the handshake's auth.token whenever it
    is truthy, whatever the Authorization header says; and a header that
    does not contain "Bearer " is taken whole as the token, so a bare
    token in the Authorization header is treated like the same token in
    the auth field. *)
Theorem socket_token_sources jwt_verify env (s : socket) :
  (∀ (a : jsval) (h : string),
     truthy a = true →
     SocketAuth.validateSocketAuth jwt_verify env (Handshake a (Some h)) s
     = SocketAuth.validateSocketAuth jwt_verify env (Handshake a None) s) ∧
  (∀ h : string,
     contains "Bearer " h = false →
     SocketAuth.validateSocketAuth jwt_verify env
       (Handshake JUndefined (Some h)) s
     = SocketAuth.validateSocketAuth jwt_verify env
         (Handshake (JStr h) None) s).
Proof.
  split.
  - intros a h Ha. unfold SocketAuth.validateSocketAuth,
      SocketAuth.handshake_token, js_or. cbn [auth_token authorization].
    by rewrite Ha.
  - intros h Hh. unfold SocketAuth.validateSocketAuth,
      SocketAuth.handshake_token, js_or. cbn [auth_token authorization].
    rewrite (js_replace_absent _ _ _ Hh).
    change (truthy JUndefined) with false. cbn iota.
    destruct (truthy (JStr h)) eqn:E; cbn iota; [by rewrite E | done].
Qed.

Lemma socket_token_sources_witness :
  truthy (JStr "good") = true ∧
  contains "Bearer " "good" = false ∧
  SocketAuth.validateSocketAuth toy_jwt jwt_env
    (Handshake JUndefined (Some "good")) new_socket
  = SocketAuth.validateSocketAuth toy_jwt jwt_env
      (Handshake (JStr "good") None) new_socket.
Proof.
  split; [reflexivity |]. split; [reflexivity |].
  exact (proj2 (socket_token_sources toy_jwt jwt_env new_socket) "good"
           eq_refl).
Defined.

Lemma js_split_no_separator c (s : string) :
  has_char c s = false → js_split c s = [s].
Proof.
  induction s as [|a s IH]; cbn; [done |].
  destruct (Ascii.eqb a c); cbn; [discriminate |].
  intros H. by rewrite IH.
Qed.

Lemma js_split_at_first c (a b : string) :
  has_char c a = false →
  js_split c (a +:+ String c b) = a :: js_split c b.
Proof.
  induction a as [|x a IH]; simpl.
  - by rewrite Ascii.eqb_refl.
  - destruct (Ascii.eqb x c); simpl; [discriminate |].
    intros H. by rewrite IH.
Qed.

(** X11. [validateJWT] reads the token as the second space-separated word
    of the Authorization header and ignores the first: any scheme word in
    front of a token gives the result "Bearer" gives. A header that is
    absent, or that has no space in it (a bare token), is answered 401
    "Access token required" whatever the token. *)
Theorem validateJWT_reads_second_word jwt_verify env :
  (∀ scheme tok : string,
     has_char " " scheme = false → has_char " " tok = false →
     HttpAuth.validateJWT jwt_verify env (Some (scheme +:+ " " +:+ tok))
     = HttpAuth.validateJWT jwt_verify env (Some ("Bearer " +:+ tok))) ∧
  (∀ h : string,
     has_char " " h = false →
     HttpAuth.validateJWT jwt_verify env (Some h)
     = (Respond (Response 401 [("error", JStr "Access token required")]),
        None)) ∧
  HttpAuth.validateJWT jwt_verify env None
  = (Respond (Response 401 [("error", JStr "Access token required")]), None).
Proof.
  assert (∀ scheme tok : string,
            has_char " " scheme = false → has_char " " tok = false →
            HttpAuth.bearer_token (Some (scheme +:+ " " +:+ tok)) = Some tok)
    as Hword.
  { intros scheme tok Hs Ht. unfold HttpAuth.bearer_token.
    change (scheme +:+ " " +:+ tok) with (scheme +:+ String " " tok).
    rewrite (js_split_at_first _ _ _ Hs), (js_split_no_separator _ _ Ht).
    by destruct scheme. }
  split; [| split].
  - intros scheme tok Hs Ht. unfold HttpAuth.validateJWT.
    change ("Bearer " +:+ tok) with ("Bearer" +:+ " " +:+ tok).
    by rewrite (Hword scheme tok Hs Ht), (Hword "Bearer" tok eq_refl Ht).
  - intros h Hh. unfold HttpAuth.validateJWT, HttpAuth.bearer_token.
    rewrite (js_split_no_separator _ _ Hh).
    by destruct h.
  - done.
Qed.

Lemma validateJWT_reads_second_word_witness :
  has_char " " "Token" = false ∧ has_char " " "abc" = false ∧
  HttpAuth.validateJWT (λ _ _, None) ∅ (Some "Token abc")
  = HttpAuth.validateJWT (λ _ _, None) ∅ (Some "Bearer abc").
Proof.
  split; [reflexivity |]. split; [reflexivity |].
  exact (proj1 (validateJWT_reads_second_word (λ _ _, None) ∅)
           "Token" "abc" eq_refl eq_refl).
Defined.

(** ** app.js: CORS and the routes *)

Lemma header_allow_origin env origin v :
  header "Access-Control-Allow-Origin" (AppHttp.corsHeaders env origin) = Some v →
  (present origin = false ∧ v = "*")
  ∨ (present origin = true ∧ origin = Some v ∧ v ∈ AppHttp.allowedOrigins env).
Proof.
  unfold AppHttp.corsHeaders.
  destruct (present origin) eqn:Hp; cbn [negb orb].
  - rewrite orb_false_r.
    destruct (includes (AppHttp.allowedOrigins env) origin) eqn:Hi; cbn;
      [| discriminate].
    intros [= <-]. right. destruct origin as [o|]; [| done]. cbn in *.
    split; [done |]. split; [done |]. by apply bool_decide_eq_true in Hi.
  - rewrite orb_true_r. cbn. intros [= <-]. by left.
Qed.

(** X12. For a request to the path of an ingestion route of app.js: an
    OPTIONS request is answered 200 by the CORS middleware, with no API
    key check and nothing delivered; a POST is answered and delivered as
    the route decides whatever its Origin, listed or not; any other method
    gets 404. The Access-Control-Allow-Origin header, when set, is "*"
    for a request without Origin and otherwise a listed origin. *)
Theorem cors_never_blocks env io now (h : AppHttp.http_request) :
  (AppHttp.method h = "OPTIONS" →
   AppHttp.handle env io now h
   = (AppHttp.corsHeaders env (AppHttp.origin h), [], AppHttp.SendStatus 200)) ∧
  (AppHttp.method h = "POST" →
   AppHttp.handle env io now h
   = (AppHttp.corsHeaders env (AppHttp.origin h),
      (AppJs.serve env io now (AppHttp.request h)).1,
      AppHttp.Json (AppJs.serve env io now (AppHttp.request h)).2)) ∧
  (AppHttp.method h ≠ "OPTIONS" → AppHttp.method h ≠ "POST" →
   AppHttp.handle env io now h
   = (AppHttp.corsHeaders env (AppHttp.origin h), [],
      AppHttp.Json AppHttp.notFound)) ∧
  (∀ v, header "Access-Control-Allow-Origin" (AppHttp.handle env io now h).1.1
        = Some v →
        (present (AppHttp.origin h) = false ∧ v = "*")
        ∨ (AppHttp.origin h = Some v ∧ v ∈ AppHttp.allowedOrigins env)).
Proof.
  unfold AppHttp.handle. split; [| split; [| split]].
  - by intros ->.
  - intros ->. cbn. by destruct (AppJs.serve _ _ _ _).
  - intros H1%String.eqb_neq H2%String.eqb_neq. by rewrite H1, H2.
  - intros v Hv.
    assert (header "Access-Control-Allow-Origin"
              (AppHttp.corsHeaders env (AppHttp.origin h)) = Some v) as Hh.
    { revert Hv. repeat case_match; done. }
    apply header_allow_origin in Hh as [? | (_ & ? & ?)]; auto.
Qed.

Lemma cors_never_blocks_witness :
  AppHttp.method
    (AppHttp.HttpRequest "OPTIONS" (Some "https://elsewhere.example")
       (AppJs.Request AppJs.Accept None accept_body)) = "OPTIONS" ∧
  AppHttp.handle ∅ (Some {["s1" := in_trip_room_only]}) sample_now
    (AppHttp.HttpRequest "OPTIONS" (Some "https://elsewhere.example")
       (AppJs.Request AppJs.Accept None accept_body))
  = (AppHttp.corsHeaders ∅ (Some "https://elsewhere.example"), [],
     AppHttp.SendStatus 200).
Proof.
  split; [reflexivity |].
  exact (proj1 (cors_never_blocks ∅ (Some {["s1" := in_trip_room_only]})
           sample_now
           (AppHttp.HttpRequest "OPTIONS" (Some "https://elsewhere.example")
              (AppJs.Request AppJs.Accept None accept_body))) eq_refl).
Defined.

(** X13. Every origin for which the HTTP CORS middleware sets
    Access-Control-Allow-Origin is also allowed by the Socket.IO origin
    check; the Socket.IO check allows in addition every origin that
    contains "localhost", "127.0.0.1" or "10.0.2.2" anywhere in it,
    whatever ALLOWED_ORIGINS lists. *)
Theorem socket_origins_include_http_origins env :
  (∀ origin v,
     header "Access-Control-Allow-Origin" (AppHttp.corsHeaders env origin)
       = Some v →
     AppHttp.socketOriginAllowed env origin = true) ∧
  (∀ o : string,
     contains "localhost" o || contains "127.0.0.1" o
       || contains "10.0.2.2" o = true →
     AppHttp.socketOriginAllowed env (Some o) = true).
Proof.
  split.
  - intros origin v [[Hp _] | (Hp & -> & Hin)]%header_allow_origin;
      unfold AppHttp.socketOriginAllowed; rewrite Hp; [done |].
    cbn [negb includes]. by rewrite bool_decide_eq_true_2.
  - intros o Ho. unfold AppHttp.socketOriginAllowed.
    repeat case_match; done.
Qed.

Lemma socket_origins_include_http_origins_witness :
  contains "localhost" "https://localhost.elsewhere.example"
    || contains "127.0.0.1" "https://localhost.elsewhere.example"
    || contains "10.0.2.2" "https://localhost.elsewhere.example" = true ∧
  header "Access-Control-Allow-Origin"
    (AppHttp.corsHeaders ∅ (Some "https://localhost.elsewhere.example")) = None ∧
  AppHttp.socketOriginAllowed ∅ (Some "https://localhost.elsewhere.example")
    = true.
Proof.
  split; [reflexivity |]. split; [vm_compute; reflexivity |].
  exact (proj2 (socket_origins_include_http_origins ∅)
           "https://localhost.elsewhere.example" eq_refl).
Defined.

Lemma targets_app (a b : list emission) :
  targets (a ++ b) = targets a ++ targets b.
Proof.
  induction a as [|[ev d | room ev d] a IH]; cbn; [done | done |].
  by rewrite IH.
Qed.

Lemma targets_each_driver (ev : string) (p : nat → jsval → payload)
    (l : list jsval) :
  targets (concat (imap (λ k d, [ToRoom (userRoom d) ev (p k d)]) l))
  = userRoom <$> l.
Proof.
  revert p. induction l as [|x l IH]; intros p; [done |].
  cbn. f_equal. exact (IH (λ k d, p (S k) d)).
Qed.

Lemma targets_when c ems :
  targets (when c ems) = if c then targets ems else [].
Proof. by destruct c. Qed.

(** X14. Whatever the route and the body, app.js emits only to personal
    rooms ("user_...") and trip rooms ("trip_..."): never to a driver
    pool, a tracking room or a monitoring room. Trip rooms are addressed
    by the two location routes and the emergency route only. *)
Theorem app_addresses_personal_and_trip_rooms e io now body room :
  room ∈ targets (emissions_of (AppJs.handler e io now body)) →
  (∃ v, room = userRoom v)
  ∨ ((e = AppJs.DriverLocation ∨ e = AppJs.LegacyDriverLocation
      ∨ e = AppJs.EmergencyAlert)
     ∧ room = tripRoom (field body "tripId")).
Proof.
  destruct e; cbn;
    unfold AppJs.sendToDrivers, AppJs.tripRequest, AppJs.tripRequestRoute,
      AppJs.noLongerAvailable, AppJs.accept, AppJs.driverArrived,
      AppJs.started, AppJs.completed, AppJs.cancel, AppJs.driverLocation,
      AppJs.legacyDriverLocation, AppJs.locationRoute, AppJs.paymentUpdate,
      AppJs.tripUpdate, AppJs.statusRoute, AppJs.emergencyAlert, forEach;
    repeat case_match; simplify_eq; cbn [emissions_of];
    rewrite ?targets_when, ?targets_app, ?targets_when, ?targets_each_driver;
    repeat case_match; cbn;
    rewrite ?elem_of_app, ?elem_of_cons, ?list_elem_of_fmap, ?elem_of_nil;
    naive_solver.
Qed.

Lemma app_addresses_personal_and_trip_rooms_witness :
  "trip_T1" ∈ targets (emissions_of (AppJs.handler AppJs.EmergencyAlert
                                       (Some ∅) sample_now emergency_body)) ∧
  ((∃ v, "trip_T1" = userRoom v)
   ∨ ((AppJs.EmergencyAlert = AppJs.DriverLocation
       ∨ AppJs.EmergencyAlert = AppJs.LegacyDriverLocation
       ∨ AppJs.EmergencyAlert = AppJs.EmergencyAlert)
      ∧ "trip_T1" = tripRoom (field emergency_body "tripId"))).
Proof.
  assert ("trip_T1" ∈ targets (emissions_of
            (AppJs.handler AppJs.EmergencyAlert (Some ∅) sample_now
               emergency_body))) as Hin by (cbn; left).
  split; [exact Hin |].
  exact (app_addresses_personal_and_trip_rooms AppJs.EmergencyAlert (Some ∅)
           sample_now emergency_body "trip_T1" Hin).
Defined.






Lemma app_handle_grows c s :
  rooms s ⊆ rooms (AppJs.handle c s).1 ∧
  (authenticated s = JBool true →
   authenticated (AppJs.handle c s).1 = JBool true).
Proof.
  destruct c; cbn; repeat case_match; cbn; split; (set_solver || done).
Qed.

(** X17. A socket of app.js never leaves a room and is never marked
    unauthenticated again: along any sequence of its socket events the set
    of rooms only grows, and once [authenticated] is true it stays true. *)
Theorem app_socket_only_gains cs s :
  rooms s ⊆ rooms (AppJs.run cs s) ∧
  (authenticated s = JBool true →
   authenticated (AppJs.run cs s) = JBool true).
Proof.
  unfold AppJs.run. induction cs as [|c cs IH] using rev_ind; [done |].
  rewrite foldl_snoc. cbn beta.
  destruct IH as [IH1 IH2].
  destruct (app_handle_grows c (foldl (λ acc c0, (AppJs.handle c0 acc).1) s cs))
    as [H1 H2].
  split; [set_solver | auto].
Qed.

Lemma app_socket_only_gains_witness :
  authenticated (AppJs.run [authenticate_u1] new_socket) = JBool true ∧
  authenticated
    (AppJs.run [AppJs.JoinUserRoom (JStr "u2"); AppJs.Authenticate ∅]
       (AppJs.run [authenticate_u1] new_socket)) = JBool true.
Proof.
  split; [reflexivity |].
  exact (proj2 (app_socket_only_gains
                  [AppJs.JoinUserRoom (JStr "u2"); AppJs.Authenticate ∅]
                  (AppJs.run [authenticate_u1] new_socket)) eq_refl).
Defined.

Lemma app_handle_ignores_authenticated c s v :
  rooms (AppJs.handle c (set_authenticated v s)).1 = rooms (AppJs.handle c s).1 ∧
  userId (AppJs.handle c (set_authenticated v s)).1
    = userId (AppJs.handle c s).1 ∧
  (AppJs.handle c (set_authenticated v s)).2 = (AppJs.handle c s).2.
Proof. destruct c; cbn; repeat case_match; done. Qed.

(** X18. No socket handler of app.js consults the [authenticated] flag:
    a socket event joins the same rooms, binds the same user id and is
    answered the same whether or not the socket was authenticated
    before. *)
Theorem app_never_checks_authenticated c s :
  rooms (AppJs.handle c (set_authenticated (JBool true) s)).1
    = rooms (AppJs.handle c (set_authenticated JUndefined s)).1 ∧
  userId (AppJs.handle c (set_authenticated (JBool true) s)).1
    = userId (AppJs.handle c (set_authenticated JUndefined s)).1 ∧
  (AppJs.handle c (set_authenticated (JBool true) s)).2
    = (AppJs.handle c (set_authenticated JUndefined s)).2.
Proof.
  destruct (app_handle_ignores_authenticated c s (JBool true)) as (-> & -> & ->).
  destruct (app_handle_ignores_authenticated c s JUndefined) as (-> & -> & ->).
  done.
Qed.

(** ** The modular server: the controller's handlers *)












Lemma notifyEach_targets g ids ev d ems room :
  TripController.notifyEach g ids ev d = Some ems →
  room ∈ targets ems → ∃ v, room = userRoom v.
Proof.
  unfold TripController.notifyEach, forEach.
  repeat case_match; intros [= <-]; cbn.
  - rewrite (targets_each_driver ev (λ _ _, d)), list_elem_of_fmap.
    intros (v & -> & _). by exists v.
  - intros Hin. by apply elem_of_nil in Hin.
Qed.

(** X23. In the modular server, every accepted (200) event of a kind tied
    to one trip (accepted, arrived, started, completed, cancelled,
    payment, emergency, status update) addresses that trip's room; the
    offers to drivers (send-to-drivers, trip request, no-longer-available)
    and the legacy location update never address a trip room, whatever
    the body. *)
Theorem trip_room_addressed g now dl k body :
  (to_trip_room k = true →
   status (TripController.handler g now dl k body).2 = 200%nat →
   tripRoom (field body "trip_id")
     ∈ targets (TripController.handler g now dl k body).1) ∧
  (k = TripController.SendToDrivers ∨ k = TripController.TripRequest
   ∨ k = TripController.NoLongerAvailable ∨ k = TripController.LegacyLocation →
   ∀ v, tripRoom v ∉ targets (TripController.handler g now dl k body).1).
Proof.
  split.
  - destruct k; intros [=]; cbn;
      unfold TripController.tripAccepted, TripController.driverArrived,
        TripController.tripStarted, TripController.tripCompleted,
        TripController.tripCancelled, TripController.paymentUpdate,
        TripController.emergencyAlert, TripController.updateTripStatus,
        TripController.broadcastTripAcceptance,
        TripController.broadcastDriverArrival,
        TripController.broadcastTripStart,
        TripController.broadcastTripCompletion,
        TripController.broadcastTripCancellation,
        TripController.broadcastPaymentUpdate,
        TripController.broadcastEmergencyAlert,
        TripController.broadcastTripUpdate;
      repeat case_match; cbn; intros Hs; try discriminate;
      rewrite ?targets_app, ?targets_when; repeat case_match; cbn;
      rewrite ?elem_of_app, ?elem_of_cons; tauto.
  - intros Hk v Hin.
    assert (∀ room, room ∈ targets (TripController.handler g now dl k body).1 →
              (∃ u, room = userRoom u) ∨ room = driverPool
              ∨ (∃ u, room = trackRoom u)) as Hrooms.
    { intros room.
      destruct Hk as [-> | [-> | [-> | ->]]]; cbn;
        unfold TripController.sendTripToDrivers, TripController.createTripRequest,
          TripController.tripNoLongerAvailable,
          TripController.legacyUpdateDriverLocation,
          TripController.broadcastTripToDrivers,
          TripController.broadcastTripRequest,
          TripController.broadcastTripUnavailable,
          TripController.broadcastDriverLocation;
        repeat case_match; simplify_eq; cbn;
        intros Hroom;
        rewrite ?targets_app in Hroom; cbn in Hroom;
        rewrite ?elem_of_cons, ?elem_of_app, ?elem_of_cons, ?elem_of_nil in Hroom;
        repeat match goal with
               | H : _ ∨ _ |- _ => destruct H
               | H : False |- _ => destruct H
               | H : TripController.notifyEach _ _ _ _ = Some _,
                 H' : _ ∈ targets _ |- _ =>
                   destruct (notifyEach_targets _ _ _ _ _ _ H H'); clear H'
               end; subst; eauto. }
    destruct (Hrooms _ Hin) as [[u Hu] | [Hu | [u Hu]]];
      unfold tripRoom, userRoom, trackRoom, driverPool in Hu; cbn in Hu;
      discriminate.
Qed.

Lemma trip_room_addressed_witness :
  to_trip_room TripController.Cancelled = true ∧
  status (TripController.handler (λ _, false) sample_now ""
            TripController.Cancelled
            (<["trip_id" := JStr "T1"]> {["cancelled_by" := JStr "rider"]})).2
    = 200%nat ∧
  tripRoom (field (<["trip_id" := JStr "T1"]>
                     {["cancelled_by" := JStr "rider"]}) "trip_id")
    ∈ targets (TripController.handler (λ _, false) sample_now ""
                 TripController.Cancelled
                 (<["trip_id" := JStr "T1"]>
                    {["cancelled_by" := JStr "rider"]})).1.
Proof.
  split; [reflexivity |]. split; [reflexivity |].
  exact (proj1 (trip_room_addressed (λ _, false) sample_now ""
           TripController.Cancelled
           (<["trip_id" := JStr "T1"]> {["cancelled_by" := JStr "rider"]}))
           eq_refl eq_refl).
Defined.

(** ** The client library *)

Lemma remove_first_snoc h (l : list nat) :
  h ∉ l → Client.remove_first h (l ++ [h]) = l.
Proof.
  induction l as [|x l IH]; cbn.
  - by rewrite Nat.eqb_refl.
  - intros Hn. apply not_elem_of_cons in Hn as [Hne Hn].
    destruct (Nat.eqb x h) eqn:E.
    + apply Nat.eqb_eq in E. congruence.
    + by rewrite IH.
Qed.

Lemma remove_first_repeated h (l : list nat) :
  h ∉ l → Client.remove_first h ((l ++ [h]) ++ [h]) = l ++ [h].
Proof.
  induction l as [|x l IH]; cbn.
  - by rewrite Nat.eqb_refl.
  - intros Hn. apply not_elem_of_cons in Hn as [Hne Hn].
    destruct (Nat.eqb x h) eqn:E.
    + apply Nat.eqb_eq in E. congruence.
    + by rewrite IH.
Qed.

Lemma emit_on event h (c : Client.client) :
  Client.emit event (Client.on event h c) = Client.emit event c ++ [h].
Proof. unfold Client.emit, Client.on. cbn. by rewrite lookup_insert_eq. Qed.

Lemma emit_on_other event other h (c : Client.client) :
  other ≠ event →
  Client.emit other (Client.on event h c) = Client.emit other c.
Proof.
  intros Hne. unfold Client.emit, Client.on. cbn.
  by rewrite lookup_insert_ne.
Qed.

Lemma emit_off event h (c : Client.client) :
  Client.emit event (Client.off event h c)
  = Client.remove_first h (Client.emit event c).
Proof.
  unfold Client.emit, Client.off.
  destruct (Client.eventHandlers c !! event) as [hs|] eqn:E; cbn.
  - by rewrite lookup_insert_eq.
  - by rewrite E.
Qed.

Lemma emit_off_other event other h (c : Client.client) :
  other ≠ event →
  Client.emit other (Client.off event h c) = Client.emit other c.
Proof.
  intros Hne. unfold Client.emit, Client.off.
  destruct (Client.eventHandlers c !! event) as [hs|] eqn:E; cbn; [| done].
  by rewrite lookup_insert_ne.
Qed.

(** X24. In the client library, [on] appends a handler to those of its
    event and [off] removes one registration of it: after [on] then
    [off] of a handler that was not registered before, the handlers
    called for that event are what they were; registered twice and
    removed once, the handler is still called once; and the handlers of
    other events are never touched. *)
Theorem client_on_off event h (c : Client.client) :
  Client.emit event (Client.on event h c) = Client.emit event c ++ [h] ∧
  (h ∉ Client.emit event c →
   Client.emit event (Client.off event h (Client.on event h c))
     = Client.emit event c ∧
   Client.emit event
     (Client.off event h (Client.on event h (Client.on event h c)))
     = Client.emit event c ++ [h]) ∧
  (∀ other, other ≠ event →
     Client.emit other (Client.off event h (Client.on event h c))
     = Client.emit other c).
Proof.
  split; [apply emit_on |]. split.
  - intros Hn. rewrite !emit_off, !emit_on. split.
    + by apply remove_first_snoc.
    + by apply remove_first_repeated.
  - intros other Hne. by rewrite emit_off_other, emit_on_other.
Qed.

Lemma client_on_off_witness :
  (7%nat ∉ Client.emit "pong" Client.create) ∧
  Client.emit "pong"
    (Client.off "pong" 7%nat (Client.on "pong" 7%nat Client.create))
  = Client.emit "pong" Client.create.
Proof.
  assert (7%nat ∉ Client.emit "pong" Client.create) as Hn
    by (vm_compute; apply not_elem_of_nil).
  split; [exact Hn |].
  exact (proj1 (proj1 (proj2 (client_on_off "pong" 7%nat Client.create)) Hn)).
Defined.



(** X26. Every message the client library's command methods send is one
    the modular server listens for; app.js listens for none of them
    except "ping", so the library's subscriptions, availability toggles,
    tracking requests, acceptances and rejections have no effect on a
    server running app.js. *)
Theorem client_commands_and_servers (c : Client.client) (a b : jsval) :
  ∀ r name d,
    r ∈ client_sends c a b → (name, d) ∈ r.2 →
    is_Some (Events.listener name (list_to_map d)) ∧
    (AppHttp.listens name = true ↔ name = "ping").
Proof.
  intros r name d Hr Hm. unfold client_sends in Hr.
  unfold Client.subscribeToTrip, Client.unsubscribeFromTrip,
    Client.toggleAvailability, Client.trackDriver, Client.acceptTrip,
    Client.rejectTrip, Client.ping, Client.send in Hr.
  destruct (Client.isConnected c); cbn in Hr.
  - repeat (apply elem_of_cons in Hr as [-> | Hr]);
      try (by apply elem_of_nil in Hr);
      cbn in Hm; apply list_elem_of_singleton in Hm as [= -> ->];
      (split; [by eexists | by vm_compute]).
  - repeat (apply elem_of_cons in Hr as [-> | Hr]);
      try (by apply elem_of_nil in Hr);
      cbn in Hm; by apply elem_of_nil in Hm.
Qed.

Lemma client_commands_and_servers_witness :
  Client.trackDriver (JStr "D1")
    (Client.onSocketConnect (Client.connect Client.create)).1
    ∈ client_sends (Client.onSocketConnect (Client.connect Client.create)).1
        (JStr "D1") JUndefined ∧
  is_Some (Events.listener "track_driver"
             (list_to_map [("driver_id", JStr "D1")])) ∧
  (AppHttp.listens "track_driver" = true ↔ "track_driver" = "ping").
Proof.
  assert (Client.trackDriver (JStr "D1")
            (Client.onSocketConnect (Client.connect Client.create)).1
          ∈ client_sends
              (Client.onSocketConnect (Client.connect Client.create)).1
              (JStr "D1") JUndefined) as Hr by (do 3 right; left).
  split; [exact Hr |].
  exact (client_commands_and_servers
           (Client.onSocketConnect (Client.connect Client.create)).1
           (JStr "D1") JUndefined _ "track_driver" [("driver_id", JStr "D1")]
           Hr (list_elem_of_here _ _)).
Defined.
